(** * Registration and feedback servers: a shallow embedding

    The repository holds two versions of one small HTTP service and its
    client:

    - the file-backed server (in-memory arrays mirrored to
      [registrations.json] and [feedbacks.json]), module [FileServer];
    - the database-backed server of [server.js] (Mongoose models
      [Registration] and [Feedback]), module [MongoServer];
    - the stand-alone routers of [routes/], module [Routes];
    - the browser client of [public/api.js], module [Client].

    Request bodies are parsed JSON, so the handlers see arbitrary JSON
    values and rely on JavaScript's truthiness, coercions and thrown
    [TypeError]s.  Module [JS] models the fragment of the language the
    handlers use. *)

From Stdlib Require Import ZArith NArith List Ascii String Lia Bool.
From Stdlib Require Import Sorting.Sorted Sorting.Permutation.
From Stdlib Require Decimal DecimalString DecimalPos.
From stdpp Require Import base option list strings pretty gmap.

#[local] Set Warnings "-register-all".
Local Open Scope Z_scope.

(* ===================================================================== *)
(** * JavaScript values and the operations the handlers use *)
(* ===================================================================== *)

Module JS.

(** A JSON value as [express.json()] hands it to a handler.  A number is
    held by the decimal expansion [Number::toString] gives it, the
    shortest one that reads back as the same double: [VNum z] is the
    integer-valued number [z], [VFrac neg int frac] the number
    [int.frac], negated when [neg] is set ([VFrac false 4 (D5 Nil)] is
    4.5).  Against an integer literal such an expansion compares as the
    double does.  Strings are ASCII text.  [VUndef] is the result of
    reading a key the object does not have. *)
Inductive value : Type :=
| VUndef
| VNull
| VBool (b : bool)
| VNum (z : Z)
| VStr (s : string)
| VArr (l : list value)
| VObj (o : list (string * value))
| VFrac (neg : bool) (int : N) (frac : Decimal.uint).

(** [req.body] and [req.query]: an object read by key. *)
Abbreviation object := (gmap string value).

(** [o[k]]: a missing key reads as [undefined]. *)
Definition get (o : object) (k : string) : value := default VUndef (o !! k).

(** The value of the digits of a fraction, and the number
    [int.frac] as the pair [(m, k)] with [int.frac = m / 10^k]. *)
Definition frac_value (frac : Decimal.uint) : Z := Z.of_N (N.of_uint frac).
Definition frac_digits (frac : Decimal.uint) : Z := Z.of_nat (Decimal.nb_digits frac).

Definition signed (neg : bool) (z : Z) : Z := if neg then - z else z.

Definition scaled (neg : bool) (int : N) (frac : Decimal.uint) : Z :=
  signed neg (Z.of_N int * 10 ^ frac_digits frac + frac_value frac).

(** ToBoolean. *)
Definition truthy (v : value) : bool :=
  match v with
  | VUndef | VNull => false
  | VBool b => b
  | VNum z => negb (z =? 0)
  | VStr s => negb (String.eqb s "")
  | VArr _ | VObj _ => true
  | VFrac neg int frac => negb (scaled neg int frac =? 0)
  end.

(** [a || b] on values. *)
Definition or_else (a b : value) : value := if truthy a then a else b.

(** Equality of the numbers [m1 / 10^k1] and [m2 / 10^k2]. *)
Definition same_number (m1 k1 m2 k2 : Z) : bool :=
  m1 * 10 ^ k2 =? m2 * 10 ^ k1.

(** [a === b].  Arrays and objects compare by identity; a value read from
    a fresh request body is never identical to a stored one. *)
Definition strict_eq (a b : value) : bool :=
  match a, b with
  | VUndef, VUndef | VNull, VNull => true
  | VBool x, VBool y => Bool.eqb x y
  | VNum x, VNum y => x =? y
  | VStr x, VStr y => String.eqb x y
  | VNum x, VFrac n i f => same_number x 0 (scaled n i f) (frac_digits f)
  | VFrac n i f, VNum y => same_number (scaled n i f) (frac_digits f) y 0
  | VFrac n i f, VFrac n' i' f' =>
      same_number (scaled n i f) (frac_digits f) (scaled n' i' f') (frac_digits f')
  | _, _ => false
  end.

(** ** Strings *)

(** White space and line terminators (the ASCII ones). *)
Definition is_ws (a : ascii) : bool :=
  let n := Z.of_nat (nat_of_ascii a) in
  ((9 <=? n) && (n <=? 13)) || (n =? 32).

Fixpoint trimStart (s : string) : string :=
  match s with
  | EmptyString => EmptyString
  | String a s' => if is_ws a then trimStart s' else s
  end.

Fixpoint trimEnd (s : string) : string :=
  match s with
  | EmptyString => EmptyString
  | String a s' =>
      match trimEnd s' with
      | EmptyString => if is_ws a then EmptyString else String a EmptyString
      | t => String a t
      end
  end.

(** [s.trim()]. *)
Definition trim (s : string) : string := trimEnd (trimStart s).

Definition lower_ascii (a : ascii) : ascii :=
  let n := nat_of_ascii a in
  if (65 <=? n)%nat && (n <=? 90)%nat then ascii_of_nat (n + 32) else a.

(** [s.toLowerCase()]. *)
Fixpoint toLowerCase (s : string) : string :=
  match s with
  | EmptyString => EmptyString
  | String a s' => String (lower_ascii a) (toLowerCase s')
  end.

Fixpoint startsWith (s p : string) {struct p} : bool :=
  match p, s with
  | EmptyString, _ => true
  | String b p', String a s' => Ascii.eqb a b && startsWith s' p'
  | String _ _, EmptyString => false
  end.

(** [s.includes(t)]. *)
Fixpoint includes (s t : string) : bool :=
  startsWith s t ||
  match s with
  | EmptyString => false
  | String _ s' => includes s' t
  end.

(** [l.join(sep)] on an array of strings. *)
Definition join (sep : string) (l : list string) : string := String.concat sep l.

(** ** Numbers *)

(** The result of ToNumber: not-a-number, an infinity, or the finite
    number [m * 10^e]. *)
Inductive num : Type :=
| NaN
| PInf
| NInf
| Dec (m e : Z).

(** [n < k] and [n > k] for an integer [k]; a comparison with NaN is false. *)
Definition num_lt (n : num) (k : Z) : bool :=
  match n with
  | NaN | PInf => false
  | NInf => true
  | Dec m e => if 0 <=? e then m * 10 ^ e <? k else m <? k * 10 ^ (- e)
  end.

Definition num_gt (n : num) (k : Z) : bool :=
  match n with
  | NaN | NInf => false
  | PInf => true
  | Dec m e => if 0 <=? e then k <? m * 10 ^ e else k * 10 ^ (- e) <? m
  end.

(** The value of character [a] as a digit in radix [b]. *)
Definition digit_of (b : Z) (a : ascii) : option Z :=
  let n := Z.of_nat (nat_of_ascii a) in
  let d := if (48 <=? n) && (n <=? 57) then Some (n - 48)
           else if (97 <=? n) && (n <=? 122) then Some (n - 87)
           else if (65 <=? n) && (n <=? 90) then Some (n - 55)
           else None in
  match d with
  | Some v => if v <? b then Some v else None
  | None => None
  end.

(** Reads the longest prefix of radix-[b] digits: the accumulated value,
    the number of digits read, and the rest of the string. *)
Fixpoint read_digits (b : Z) (s : string) (acc : Z) (cnt : Z) : Z * Z * string :=
  match s with
  | EmptyString => (acc, cnt, s)
  | String a s' =>
      match digit_of b a with
      | Some d => read_digits b s' (acc * b + d) (cnt + 1)
      | None => (acc, cnt, s)
      end
  end.

Definition read_sign (s : string) : bool * string :=
  match s with
  | String "-" r => (true, r)
  | String "+" r => (false, r)
  | _ => (false, s)
  end.

Definition is_exp_mark (a : ascii) : bool := Ascii.eqb a "e" || Ascii.eqb a "E".

(** StrDecimalLiteral: an optional sign, then [Infinity] or digits with an
    optional fraction and exponent; anything else is NaN. *)
Definition str_decimal (s : string) : num :=
  let '(neg, r) := read_sign s in
  if String.eqb r "Infinity" then (if neg then NInf else PInf) else
  let '(ip, n1, r1) := read_digits 10 r 0 0 in
  let '(m, n2, r2) :=
    match r1 with
    | String "." r' => read_digits 10 r' ip 0
    | _ => (ip, 0, r1)
    end in
  if n1 + n2 =? 0 then NaN else
  match r2 with
  | EmptyString => Dec (signed neg m) (- n2)
  | String c r3 =>
      if is_exp_mark c then
        let '(eneg, r4) := read_sign r3 in
        let '(ev, n3, r5) := read_digits 10 r4 0 0 in
        if (n3 =? 0) || negb (String.eqb r5 "") then NaN
        else Dec (signed neg m) (signed eneg ev - n2)
      else NaN
  end.

(** NonDecimalIntegerLiteral: [0x], [0o] or [0b] and at least one digit. *)
Definition str_nondecimal (s : string) : option num :=
  match s with
  | String "0" (String x r) =>
      let radix :=
        if Ascii.eqb x "x" || Ascii.eqb x "X" then Some 16
        else if Ascii.eqb x "o" || Ascii.eqb x "O" then Some 8
        else if Ascii.eqb x "b" || Ascii.eqb x "B" then Some 2
        else None in
      match radix with
      | Some b =>
          let '(v, n, rest) := read_digits b r 0 0 in
          Some (if (n =? 0) || negb (String.eqb rest "") then NaN else Dec v 0)
      | None => None
      end
  | _ => None
  end.

(** ** Rounding to a double

    The value of a numeric literal is rounded to the nearest double,
    ties to even; from [2^1024 - 2^970] on the result is an infinity. *)

Definition negate (n : num) : num :=
  match n with
  | NaN => NaN
  | PInf => NInf
  | NInf => PInf
  | Dec m e => Dec (- m) e
  end.

(** [q] or [q + 1], for a quotient [q] with remainder [r] by [d]. *)
Definition round_half_even (q r d : Z) : Z :=
  if (d <? 2 * r) || ((d =? 2 * r) && Z.odd q) then q + 1 else q.

(** The double nearest to the integer [v >= 0]. *)
Definition nearest_to_integer (v : Z) : num :=
  if v <? 2 ^ 53 then Dec v 0 else
  let shift := Z.log2 v - 52 in
  let w := round_half_even (v / 2 ^ shift) (v mod 2 ^ shift) (2 ^ shift) * 2 ^ shift in
  if 2 ^ 1024 <=? w then PInf else Dec w 0.

(** The double nearest to [a / b], for [a >= 0] and [b > 0]: the
    quotient is scaled by a power of two so as to have 53 bits, or to the
    exponent of the subnormal numbers, and rounded there. *)
Definition nearest_to_ratio (a b : Z) : num :=
  if a =? 0 then Dec 0 0 else
  let scale e := (a * 2 ^ Z.max 0 (- e), b * 2 ^ Z.max 0 e) in
  let quotient e := let '(n, d) := scale e in n / d in
  let e0 := Z.log2 a - Z.log2 b - 52 in
  let e1 := if 2 ^ 53 <=? quotient e0 then e0 + 1
            else if quotient e0 <? 2 ^ 52 then e0 - 1
            else e0 in
  let e2 := Z.max e1 (- 1074) in
  let '(n, d) := scale e2 in
  let q := round_half_even (n / d) (n mod d) d in
  if 0 <=? e2 then
    if 2 ^ 1024 <=? q * 2 ^ e2 then PInf else Dec (q * 2 ^ e2) 0
  else Dec (q * 5 ^ (- e2)) e2.

(** The double nearest to a number. *)
Definition to_double (n : num) : num :=
  match n with
  | Dec m e =>
      let r := if 0 <=? e then nearest_to_integer (Z.abs m * 10 ^ e)
               else nearest_to_ratio (Z.abs m) (10 ^ (- e)) in
      if m <? 0 then negate r else r
  | _ => n
  end.

(** ToNumber on a string: white space is trimmed, the empty string is 0,
    and the value of the literal is rounded. *)
Definition string_to_number (s : string) : num :=
  let t := trim s in
  if String.eqb t "" then Dec 0 0 else
  to_double match str_nondecimal t with
            | Some n => n
            | None => str_decimal t
            end.

(** ** Number::toString *)

(** The digits without the zeros at their end, and the number of zeros
    at their head. *)
Definition strip_zeros (d : Decimal.uint) : Decimal.uint :=
  Decimal.rev (Decimal.nzhead (Decimal.rev d)).

Fixpoint leading_zeros (d : Decimal.uint) : Z :=
  match d with
  | Decimal.D0 d' => 1 + leading_zeros d'
  | _ => 0
  end.

Definition digits_string (d : Decimal.uint) : string :=
  DecimalString.NilEmpty.string_of_uint d.

(** [d.ddde+x] and [d.ddde-x]: [digits] are the significant digits. *)
Definition exponent_form (neg : bool) (digits : Decimal.uint) (exponent : Z)
  : string :=
  match digits_string digits with
  | EmptyString => "0"
  | String d rest =>
      (if neg then "-" else "")
      +:+ String d (if String.eqb rest "" then "" else "." +:+ rest)
      +:+ (if exponent <? 0 then "e-" else "e+")
      +:+ pretty (Z.abs exponent)
  end.

(** An integer prints in full below [10^21]. *)
Definition integer_to_string (z : Z) : string :=
  if Z.abs z <? 10 ^ 21 then pretty z else
  let digits := N.to_uint (Z.to_N (Z.abs z)) in
  exponent_form (z <? 0) (strip_zeros digits)
    (Z.of_nat (Decimal.nb_digits digits) - 1).

(** A fraction prints as [int.frac] down to [0.000001]. *)
Definition fraction_to_string (neg : bool) (int : N) (frac : Decimal.uint)
  : string :=
  match strip_zeros frac with
  | Decimal.Nil => integer_to_string (signed neg (Z.of_N int))
  | digits =>
      if (int =? 0)%N && (6 <=? leading_zeros digits)
      then exponent_form neg (Decimal.nzhead digits) (- (leading_zeros digits + 1))
      else (if neg then "-" else "") +:+ pretty int +:+ "." +:+ digits_string digits
  end.

(** ToString.  An array joins its elements with commas, printing
    [null] and [undefined] elements as the empty string. *)
Fixpoint to_string (v : value) : string :=
  match v with
  | VUndef => "undefined"
  | VNull => "null"
  | VBool true => "true"
  | VBool false => "false"
  | VNum z => integer_to_string z
  | VStr s => s
  | VArr l =>
      join "," (map (fun x => match x with
                              | VUndef | VNull => ""
                              | _ => to_string x
                              end) l)
  | VObj _ => "[object Object]"
  | VFrac neg int frac => fraction_to_string neg int frac
  end.

(** ToNumber. *)
Definition to_number (v : value) : num :=
  match v with
  | VUndef => NaN
  | VNull => Dec 0 0
  | VBool b => Dec (if b then 1 else 0) 0
  | VNum z => Dec z 0
  | VStr s => string_to_number s
  | VArr _ | VObj _ => string_to_number (to_string v)
  | VFrac neg int frac => Dec (scaled neg int frac) (- frac_digits frac)
  end.

(** [v < k] and [v > k] against a number literal: both sides go through
    ToNumber. *)
Definition lt (v : value) (k : Z) : bool := num_lt (to_number v) k.
Definition gt (v : value) (k : Z) : bool := num_gt (to_number v) k.

(** The result of [parseInt]: NaN, an integer that is a double, or an
    infinity. *)
Inductive jsint : Type :=
| INaN
| IInt (z : Z)
| IInf (neg : bool).

(** [parseInt(v)] with no radix: ToString, leading white space, a sign,
    an optional [0x], then the longest run of digits, whose value is
    rounded to a double. *)
Definition parseInt (v : value) : jsint :=
  let s1 := trimStart (to_string v) in
  let '(neg, s2) := read_sign s1 in
  let '(radix, s3) :=
    match s2 with
    | String "0" (String x r) =>
        if Ascii.eqb x "x" || Ascii.eqb x "X" then (16, r) else (10, s2)
    | _ => (10, s2)
    end in
  let '(v, n, _) := read_digits radix s3 0 0 in
  if n =? 0 then INaN else
  match nearest_to_integer v with
  | Dec w _ => IInt (signed neg w)
  | _ => IInf neg
  end.

(** [v.length]. *)
Definition length_of (v : value) : value :=
  match v with
  | VStr s => VNum (Z.of_nat (String.length s))
  | VArr l => VNum (Z.of_nat (List.length l))
  | VObj o =>
      match List.find (fun kv => String.eqb (fst kv) "length") o with
      | Some kv => snd kv
      | None => VUndef
      end
  | _ => VUndef
  end.

(** What [JSON.parse(JSON.stringify(v))] gives back for a value held in a
    property: inside an array an [undefined] is written as [null], inside
    an object its key is left out. *)
Fixpoint json_roundtrip (v : value) : value :=
  match v with
  | VArr l =>
      VArr (map (fun x => match x with
                          | VUndef => VNull
                          | _ => json_roundtrip x
                          end) l)
  | VObj o =>
      VObj (flat_map (fun '(k, x) => match x with
                                     | VUndef => []
                                     | _ => [(k, json_roundtrip x)]
                                     end) o)
  | _ => v
  end.


End JS.

Import JS.

(** [arr.sort((a, b) => new Date(b.timestamp) - new Date(a.timestamp))]:
    the sort is stable, so with this comparator its result is the
    arrangement by decreasing key in which equal keys keep their order. *)
Section NewestFirst.
Context {A : Type} (key : A -> Z).

Fixpoint insert_newest (x : A) (l : list A) : list A :=
  match l with
  | [] => [x]
  | y :: l' => if key x <? key y then y :: insert_newest x l' else x :: l
  end.

Fixpoint sort_newest (l : list A) : list A :=
  match l with
  | [] => []
  | x :: l' => insert_newest x (sort_newest l')
  end.
End NewestFirst.

(** [arr.filter(p)] where the callback may throw: [None] is the throw. *)
Fixpoint filter_throwing {A : Type} (p : A -> option bool) (l : list A)
  : option (list A) :=
  match l with
  | [] => Some []
  | x :: l' =>
      match p x with
      | None => None
      | Some keep =>
          match filter_throwing p l' with
          | None => None
          | Some r => Some (if keep then x :: r else r)
          end
      end
  end.

(* ===================================================================== *)
(** * The file-backed server *)
(* ===================================================================== *)

Module FileServer.

(** A stored registration.  The handler copies the mandatory fields from
    the request body as they are, so they are JSON values.  [reg_timestamp]
    is the instant, in milliseconds, that the stored ISO string denotes. *)
Record registration : Type := {
  reg_id : Z;
  firstName : value;
  lastName : value;
  email : value;
  phone : value;
  location : value;
  gender : value;
  channel : value;
  interests : value;
  otherInterest : value;
  consent : value;
  reg_timestamp : Z
}.

(** A stored feedback; [rating] is [null] ([None]) or what [parseInt] gave. *)
Record feedback : Type := {
  fb_id : Z;
  feedback1 : string;
  feedback2 : string;
  rating : option jsint;
  fb_timestamp : Z
}.

(** The two module-level arrays and the two files they are saved to: for
    each file, the array [loadFromFile] reads from it, which is the
    empty array when the file is missing or its text does not parse. *)
Record state : Type := {
  registrations : list registration;
  feedbacks : list feedback;
  registrations_json : list registration;
  feedbacks_json : list feedback
}.

(** What a failed [fs.writeFile] leaves behind.  The file is opened with
    the flag ['w'], which truncates it: the failure comes before that and
    the file is untouched, or after it with none or a part of the text
    written, so that the file no longer parses, or once the whole text
    is on disk. *)
Inductive leftover : Type :=
| Untouched
| Unreadable
| Complete.

(** What a request reads from outside: [Date.now()], [new Date()],
    whether [fs.writeFile] succeeds and what it leaves when it fails. *)
Record env : Type := {
  date_now : Z;
  new_date : Z;
  write_ok : bool;
  failed_write : leftover
}.

(** An element of the answer of [GET /api/admin/feedbacks]:
    [{...feedback, name, text}]. *)
Record feedback_view : Type := {
  view_id : Z;
  view_feedback1 : string;
  view_feedback2 : string;
  view_rating : option jsint;
  view_timestamp : Z;
  name : string;
  text : string
}.

Inductive payload : Type :=
| Envelope (success : bool) (message : string) (id : option Z) (token : option string)
| RegistrationList (l : list registration)
| FeedbackList (l : list feedback_view)
| StatsObj (n_registrations n_feedbacks admins : Z)
| ErrorObj (error : string).

Record response : Type := { status : Z; body : payload }.

Definition json (p : payload) : response := {| status := 200; body := p |}.
Definition status_json (code : Z) (p : payload) : response :=
  {| status := code; body := p |}.

(** What the file reads as after [fs.writeFile] was asked to replace
    [old] by [new]. *)
Definition written {A : Type} (e : env) (old new : list A) : list A :=
  if write_ok e then new
  else match failed_write e with
       | Untouched => old
       | Unreadable => []
       | Complete => new
       end.

(** [saveToFile]: a failed write is caught and logged, nothing else. *)
Definition saveToFile_registrations (e : env) (s : state) : state :=
  {| registrations := registrations s; feedbacks := feedbacks s;
     registrations_json := written e (registrations_json s) (registrations s);
     feedbacks_json := feedbacks_json s |}.

Definition saveToFile_feedbacks (e : env) (s : state) : state :=
  {| registrations := registrations s; feedbacks := feedbacks s;
     registrations_json := registrations_json s;
     feedbacks_json := written e (feedbacks_json s) (feedbacks s) |}.

Definition push_registration (r : registration) (s : state) : state :=
  {| registrations := registrations s ++ [r]; feedbacks := feedbacks s;
     registrations_json := registrations_json s;
     feedbacks_json := feedbacks_json s |}.

Definition push_feedback (f : feedback) (s : state) : state :=
  {| registrations := registrations s; feedbacks := feedbacks s ++ [f];
     registrations_json := registrations_json s;
     feedbacks_json := feedbacks_json s |}.

Definition required : list string :=
  ["firstName"; "lastName"; "email"; "phone"; "location"; "gender"; "channel"].

(** [required.filter(field => !req.body[field])]. *)
Definition missing (b : object) : list string :=
  List.filter (fun field => negb (truthy (get b field))) required.

(** [POST /api/register]. *)
Definition register (e : env) (b : object) (s : state) : state * response :=
  if 0 <? Z.of_nat (length (missing b)) then
    (s, status_json 400
          (Envelope false
             ("Missing required fields: " +:+ join ", " (missing b)) None None))
  else if truthy (get b "interests") && gt (length_of (get b "interests")) 2 then
    (s, status_json 400
          (Envelope false "Maximum 2 areas of interest allowed" None None))
  else
    match List.find (fun reg => strict_eq (email reg) (get b "email"))
                    (registrations s) with
    | Some _ =>
        (s, status_json 400 (Envelope false "Email already registered" None None))
    | None =>
        let registration :=
          {| reg_id := date_now e;
             firstName := get b "firstName";
             lastName := get b "lastName";
             email := get b "email";
             phone := get b "phone";
             location := get b "location";
             gender := get b "gender";
             channel := get b "channel";
             interests := or_else (get b "interests") (VArr []);
             otherInterest := or_else (get b "otherInterest") (VStr "");
             consent := or_else (get b "consent") (VBool false);
             reg_timestamp := new_date e |} in
        (saveToFile_registrations e (push_registration registration s),
         json (Envelope true "Registration successful"
                 (Some (reg_id registration)) None))
    end.

(** [x ? x.trim() : ''], which throws when [x] is truthy and has no
    [trim] method. *)
Definition trim_or_empty (x : value) : option string :=
  if truthy x then
    match x with
    | VStr s => Some (trim s)
    | _ => None
    end
  else Some "".

(** [POST /api/feedback]. *)
Definition submit_feedback (e : env) (b : object) (s : state) : state * response :=
  let fb1 := get b "feedback1" in
  let fb2 := get b "feedback2" in
  let r := get b "rating" in
  if negb (truthy fb1) && negb (truthy fb2) then
    (s, status_json 400
          (Envelope false "At least one feedback field is required" None None))
  else if truthy r && (lt r 1 || gt r 5) then
    (s, status_json 400
          (Envelope false "Rating must be between 1 and 5" None None))
  else
    match trim_or_empty fb1, trim_or_empty fb2 with
    | Some t1, Some t2 =>
        let feedback :=
          {| fb_id := date_now e;
             feedback1 := t1;
             feedback2 := t2;
             rating := if truthy r then Some (parseInt r) else None;
             fb_timestamp := new_date e |} in
        (saveToFile_feedbacks e (push_feedback feedback s),
         json (Envelope true "Feedback submitted successfully" None None))
    | _, _ =>
        (s, status_json 500
              (Envelope false "Server error during feedback submission" None None))
    end.

(** [GET /api/admin/stats]. *)
Definition stats (s : state) : response :=
  json (StatsObj (Z.of_nat (length (registrations s)))
                 (Z.of_nat (length (feedbacks s))) 3).

(** [field.toLowerCase().includes(searchLower)]; a field that is not a
    string has no [toLowerCase] and the call throws. *)
Definition field_includes (field : value) (searchLower : string) : option bool :=
  match field with
  | VStr f => Some (includes (toLowerCase f) searchLower)
  | _ => None
  end.

(** [a || b] where either side may throw and [b] is only evaluated when
    [a] is false. *)
Definition or_throwing (a b : option bool) : option bool :=
  match a with
  | None => None
  | Some true => Some true
  | Some false => b
  end.

(** The filter callback of the search. *)
Definition matches (searchLower : string) (reg : registration) : option bool :=
  or_throwing (field_includes (firstName reg) searchLower)
    (or_throwing (field_includes (lastName reg) searchLower)
       (or_throwing (field_includes (email reg) searchLower)
          (field_includes (location reg) searchLower))).

(** [search && search.trim().length > 0]: [Some None] when the search is
    not applied, [Some (Some t)] with [t = search.toLowerCase().trim()]
    when it is, [None] when [search] has no [trim] (a repeated or nested
    query parameter). *)
Definition search_term (search : value) : option (option string) :=
  if truthy search then
    match search with
    | VStr q =>
        if 0 <? Z.of_nat (String.length (trim q))
        then Some (Some (trim (toLowerCase q)))
        else Some None
    | _ => None
    end
  else Some None.

(** [GET /api/admin/registrations]. *)
Definition list_registrations (query : object) (s : state) : response :=
  let failed := status_json 500 (ErrorObj "Failed to fetch registrations") in
  match search_term (get query "search") with
  | None => failed
  | Some None =>
      json (RegistrationList (sort_newest reg_timestamp (registrations s)))
  | Some (Some searchLower) =>
      match filter_throwing (matches searchLower) (registrations s) with
      | None => failed
      | Some results => json (RegistrationList (sort_newest reg_timestamp results))
      end
  end.

(** [[feedback.feedback1, feedback.feedback2]
      .filter(text => text && text.trim()).join(' | ')]. *)
Definition display_text (f : feedback) : string :=
  join " | "
    (List.filter (fun t => negb (String.eqb t "") && negb (String.eqb (trim t) ""))
       [feedback1 f; feedback2 f]).

Definition view (f : feedback) : feedback_view :=
  {| view_id := fb_id f;
     view_feedback1 := feedback1 f;
     view_feedback2 := feedback2 f;
     view_rating := rating f;
     view_timestamp := fb_timestamp f;
     name := "Anonymous User";
     text := display_text f |}.

(** [GET /api/admin/feedbacks]. *)
Definition list_feedbacks (s : state) : response :=
  json (FeedbackList (map view (sort_newest fb_timestamp (feedbacks s)))).

(** [POST /api/admin/login]. *)
Definition login (b : object) : response :=
  if strict_eq (get b "username") (VStr "admin@mtn.ng")
     && strict_eq (get b "password") (VStr "1234")
  then json (Envelope true "Login successful" None (Some "demo-token"))
  else status_json 401 (Envelope false "Invalid credentials" None None).

(** ** Start-up and the sequence of requests *)

(** A record read back from the JSON text [saveToFile] wrote. *)
Definition reload_registration (r : registration) : registration :=
  {| reg_id := reg_id r;
     firstName := json_roundtrip (firstName r);
     lastName := json_roundtrip (lastName r);
     email := json_roundtrip (email r);
     phone := json_roundtrip (phone r);
     location := json_roundtrip (location r);
     gender := json_roundtrip (gender r);
     channel := json_roundtrip (channel r);
     interests := json_roundtrip (interests r);
     otherInterest := json_roundtrip (otherInterest r);
     consent := json_roundtrip (consent r);
     reg_timestamp := reg_timestamp r |}.

(** A rating that is NaN or an infinity was written as [null]. *)
Definition reload_feedback (f : feedback) : feedback :=
  {| fb_id := fb_id f;
     feedback1 := feedback1 f;
     feedback2 := feedback2 f;
     rating := match rating f with
               | Some (IInt z) => Some (IInt z)
               | _ => None
               end;
     fb_timestamp := fb_timestamp f |}.

(** [loadData]: both arrays are replaced by what [loadFromFile] reads
    from the two files. *)
Definition loadData (s : state) : state :=
  {| registrations := map reload_registration (registrations_json s);
     feedbacks := map reload_feedback (feedbacks_json s);
     registrations_json := registrations_json s;
     feedbacks_json := feedbacks_json s |}.

(** The requests that write, handled one after the other. *)
Inductive request : Type :=
| PostRegister (e : env) (b : object)
| PostFeedback (e : env) (b : object).

Definition handle (r : request) (s : state) : state * response :=
  match r with
  | PostRegister e b => register e b s
  | PostFeedback e b => submit_feedback e b s
  end.

Fixpoint run (rs : list request) (s : state) : state * list response :=
  match rs with
  | [] => (s, [])
  | r :: rs' =>
      let '(s1, a) := handle r s in
      let '(s2, answers) := run rs' s1 in
      (s2, a :: answers)
  end.

End FileServer.

(* ===================================================================== *)
(** * The database-backed server ([server.js]) *)
(* ===================================================================== *)

Module MongoServer.

(** Why a model operation rejected: the database cannot be reached, the
    document fails the schema at the listed paths (a value that cannot
    be cast, or a required path left empty), the query holds operators
    the library rejects, or the collection already has a document with
    the identifier. *)
Inductive store_error : Type :=
| Unavailable
| ValidationError (paths : list string)
| QueryError
| DuplicateKey.

(** A document of the [Registration] collection, after the schema's
    casts and setters.  An optional path holds [None] when the payload
    left it out (a [null] is kept as not set).  [timestamp] is the
    instant in milliseconds, or [null_date] for a [null] timestamp. *)
Record registration_doc : Type := {
  _id : N;
  firstName : string;
  lastName : string;
  email : string;
  phone : option string;
  location : option string;
  gender : option string;
  channel : option string;
  interests : list (option string);
  otherInterest : option string;
  consent : option bool;
  timestamp : Z
}.

(** A document of the [Feedback] collection; the handler never sets
    [registrationId]. *)
Record feedback_doc : Type := {
  fb_id : N;
  feedback1 : option string;
  feedback2 : option string;
  rating : option Z;
  fb_timestamp : Z
}.

(** Console lines the model keeps: the duplicate-email warning. *)
Inductive log_line : Type :=
| EmailAlreadyRegistered (email : value).

(** The two collections, the next identifier the driver hands out and
    the console. *)
Record state : Type := {
  Registration : list registration_doc;
  Feedback : list feedback_doc;
  next_id : N;
  console : list log_line
}.

(** What a request reads from outside: the clock behind the [Date.now]
    default, whether the database answers, and the parts of the engine
    and of the library that the model leaves open:
    - [new_Date v] is [new Date(v).getTime()] for a string, an array or
      an object [v], as the engine's date parser reads it, [None] being
      NaN;
    - [own_paths b] is what the library makes of the keys of a body that
      it declares itself, [_id], the version key [__v] and the virtual
      [id]: [None] for a failed cast, otherwise the identifier the body
      sets, if any;
    - [conditions o] is the test an object of query operators, such as
      [{$ne: ...}], performs on a stored string, [None] when the library
      rejects the object. *)
Record env : Type := {
  date_now : Z;
  connected : bool;
  new_Date : value -> option Z;
  own_paths : object -> option (option N);
  conditions : list (string * value) -> option (string -> bool)
}.

(** An element of the answer of [GET /api/admin/feedbacks]. *)
Record feedback_view : Type := {
  name : string;
  text : string;
  view_rating : option Z;
  view_timestamp : Z;
  view_id : N
}.

(** Response bodies.  [Failure prefix err] is
    [{success: false, message: prefix + err.message}]. *)
Inductive payload : Type :=
| Envelope (success : bool) (message : string) (id : option N) (token : option string)
| Failure (prefix : string) (err : store_error)
| RegistrationList (l : list registration_doc)
| FeedbackList (l : list feedback_view)
| StatsObj (n_registrations n_feedbacks admins : Z) (error : option string).

Record response : Type := { status : Z; body : payload }.

Definition json (p : payload) : response := {| status := 200; body := p |}.
Definition status_json (code : Z) (p : payload) : response :=
  {| status := code; body := p |}.

(** ** The schema layer

    The casts follow the library's table for JSON values. *)

(** Cast to [String]: [None] is a failed cast, [Some None] is not set.
    An object is taken for a document and stands for its [_id] when that
    is a non-empty string; any other object and every array fail. *)
Definition cast_string (v : value) : option (option string) :=
  match v with
  | VUndef | VNull => Some None
  | VStr s => Some (Some s)
  | VNum _ | VFrac _ _ _ | VBool _ => Some (Some (to_string v))
  | VArr _ => None
  | VObj o =>
      match List.find (fun kv => String.eqb kv.1 "_id") o with
      | Some (_, VStr (String a t)) => Some (Some (String a t))
      | _ => None
      end
  end.

(** Cast to [Boolean]: [true], ['true'], [1], ['1'], ['yes'] and their
    negative counterparts; [null] stays [null]. *)
Definition cast_boolean (v : value) : option (option bool) :=
  match v with
  | VNull => Some None
  | VBool b => Some (Some b)
  | VNum _ | VFrac _ _ _ =>
      if strict_eq v (VNum 1) then Some (Some true)
      else if strict_eq v (VNum 0) then Some (Some false)
      else None
  | VStr s =>
      if String.eqb s "true" || String.eqb s "1" || String.eqb s "yes"
      then Some (Some true)
      else if String.eqb s "false" || String.eqb s "0" || String.eqb s "no"
      then Some (Some false)
      else None
  | _ => None
  end.

(** The time values of a [Date] run from [- max_time] to [max_time];
    [null_date] stands for a [null] date, which the database sorts below
    every date. *)
Definition max_time : Z := 8640000000000000.
Definition null_date : Z := - max_time - 1.

(** [new Date(n).getTime()] for a number: its integral part when that is
    a time value, otherwise NaN. *)
Definition time_clip (n : num) : option Z :=
  match n with
  | Dec m e =>
      let t := if 0 <=? e then m * 10 ^ e else Z.quot m (10 ^ (- e)) in
      if Z.abs t <=? max_time then Some t else None
  | _ => None
  end.

(** [timestamp: { type: Date, default: Date.now }]: [None] is a failed
    cast.  A number is a time value; so is a text that reads as a number
    too large to be a year; [null] and the empty text are a [null] date;
    a boolean fails; everything else goes through [new Date]. *)
Definition timestamp_path (e : env) (v : value) : option Z :=
  match v with
  | VUndef => Some (date_now e)
  | VNull => Some null_date
  | VBool _ => None
  | VNum _ | VFrac _ _ _ => time_clip (to_number v)
  | VStr s =>
      if String.eqb s "" then Some null_date else
      match string_to_number s with
      | NaN => new_Date e v
      | n => if negb (num_lt n 275761) || num_lt n (- 271820)
             then time_clip n
             else new_Date e v
      end
  | VArr _ | VObj _ => new_Date e v
  end.

(** The identifier a body sets: none when it has none of the keys the
    library declares itself. *)
Definition body_id (e : env) (b : object) : option (option N) :=
  match get b "_id", get b "__v", get b "id" with
  | VUndef, VUndef, VUndef => Some None
  | _, _, _ => own_paths e b
  end.

(** A [String] path with its setters; [required] rejects a value that is
    not set or empty. *)
Definition string_path (required trims lowers : bool) (v : value)
  : option (option string) :=
  match cast_string v with
  | None => None
  | Some None => if required then None else Some None
  | Some (Some s) =>
      let s1 := if trims then trim s else s in
      let s2 := if lowers then toLowerCase s1 else s1 in
      if required && String.eqb s2 "" then None else Some (Some s2)
  end.

(** The [[String]] path: an array is cast element by element, a scalar
    becomes a one-element array. *)
Definition cast_string_array (v : value) : option (list (option string)) :=
  match v with
  | VUndef | VNull => Some []
  | VArr l => mapM cast_string l
  | _ => match cast_string v with
         | Some x => Some [x]
         | None => None
         end
  end.

(** [consent: { type: Boolean, default: false }]. *)
Definition consent_path (v : value) : option (option bool) :=
  match v with
  | VUndef => Some (Some false)
  | _ => cast_boolean v
  end.

Definition failed {A : Type} (path : string) (r : option A) : list string :=
  match r with
  | None => [path]
  | Some _ => []
  end.

(** The casts and validators [Registration.create(req.body)] runs: the
    document, which takes the generated identifier when the body sets
    none, or the paths that fail validation. *)
Definition cast_registration (e : env) (b : object)
  : (N -> registration_doc) + list string :=
  let fn := string_path true true false (get b "firstName") in
  let ln := string_path true true false (get b "lastName") in
  let em := string_path true true true (get b "email") in
  let ph := string_path false false false (get b "phone") in
  let lo := string_path false false false (get b "location") in
  let ge := string_path false false false (get b "gender") in
  let ch := string_path false false false (get b "channel") in
  let it := cast_string_array (get b "interests") in
  let ot := string_path false false false (get b "otherInterest") in
  let co := consent_path (get b "consent") in
  let ts := timestamp_path e (get b "timestamp") in
  let id := body_id e b in
  match fn, ln, em, ph, lo, ge, ch, it, ot, co, ts, id with
  | Some (Some fn'), Some (Some ln'), Some (Some em'),
    Some ph', Some lo', Some ge', Some ch', Some it', Some ot', Some co',
    Some ts', Some id' =>
      inl (fun generated =>
             {| _id := default generated id';
                firstName := fn'; lastName := ln'; email := em';
                phone := ph'; location := lo'; gender := ge'; channel := ch';
                interests := it'; otherInterest := ot'; consent := co';
                timestamp := ts' |})
  | _, _, _, _, _, _, _, _, _, _, _, _ =>
      inr (failed "firstName" fn ++ failed "lastName" ln ++ failed "email" em
           ++ failed "phone" ph ++ failed "location" lo ++ failed "gender" ge
           ++ failed "channel" ch ++ failed "interests" it
           ++ failed "otherInterest" ot ++ failed "consent" co
           ++ failed "timestamp" ts ++ failed "_id" id)
  end.

Definition insert_registration (d : registration_doc) (s : state) : state :=
  {| Registration := Registration s ++ [d]; Feedback := Feedback s;
     next_id := N.succ (next_id s); console := console s |}.

Definition insert_feedback (d : feedback_doc) (s : state) : state :=
  {| Registration := Registration s; Feedback := Feedback s ++ [d];
     next_id := N.succ (next_id s); console := console s |}.

Definition log (l : log_line) (s : state) : state :=
  {| Registration := Registration s; Feedback := Feedback s;
     next_id := next_id s; console := console s ++ [l] |}.

(** The identifier the driver generates: its counter, moved past the
    identifiers that bodies have put into the collection. *)
Definition new_id (s : state) : N :=
  fold_right (fun d n => N.max n (N.succ (_id d))) (next_id s) (Registration s).

(** [Registration.create(req.body)]: the collection takes no second
    document with an identifier it already holds. *)
Definition create_registration (e : env) (b : object) (s : state)
  : (registration_doc * state) + store_error :=
  if connected e then
    match cast_registration e b with
    | inl mk =>
        let d := mk (new_id s) in
        if existsb (fun x => (_id x =? _id d)%N) (Registration s)
        then inr DuplicateKey
        else inl (d, insert_registration d s)
    | inr paths => inr (ValidationError paths)
    end
  else inr Unavailable.

Definition is_operator (key : string) : bool := startsWith key "$".

(** [Registration.findOne({ email })].  An object with a key that starts
    with [$] is a condition made of query operators; any other value
    goes through the path's cast and setters, and the query gives the
    first document with that email. *)
Definition findOne_email (e : env) (v : value) (s : state)
  : option registration_doc + store_error :=
  let by_value :=
    match string_path false true true v with
    | None => inr (ValidationError ["email"])
    | Some None => inl None
    | Some (Some q) =>
        inl (List.find (fun d => String.eqb (email d) q) (Registration s))
    end in
  if connected e then
    match v with
    | VObj o =>
        if existsb (fun kv => is_operator kv.1) o then
          match conditions e o with
          | Some test => inl (List.find (fun d => test (email d)) (Registration s))
          | None => inr QueryError
          end
        else by_value
    | _ => by_value
    end
  else inr Unavailable.

Definition required : list string :=
  ["firstName"; "lastName"; "email"; "phone"; "location"; "gender"; "channel"].

Definition missing (b : object) : list string :=
  List.filter (fun field => negb (truthy (get b field))) required.

(** [POST /api/register]. *)
Definition register (e : env) (b : object) (s : state) : state * response :=
  let server_error err :=
    status_json 500 (Failure "Server error during registration: " err) in
  if 0 <? Z.of_nat (length (missing b)) then
    (s, status_json 400
          (Envelope false
             ("Missing required fields: " +:+ join ", " (missing b)) None None))
  else if truthy (get b "interests") && gt (length_of (get b "interests")) 2 then
    (s, status_json 400 (Envelope false "Maximum 2 interests allowed" None None))
  else
    match findOne_email e (get b "email") s with
    | inr err => (s, server_error err)
    | inl existingUser =>
        let s1 := match existingUser with
                  | Some _ => log (EmailAlreadyRegistered (get b "email")) s
                  | None => s
                  end in
        match create_registration e b s1 with
        | inr err => (s1, server_error err)
        | inl (registration, s2) =>
            (s2, json (Envelope true "Registration successful"
                         (Some (_id registration)) None))
        end
    end.

(** The [Feedback] schema: two plain [String] paths and
    [rating: { type: Number, min: 1, max: 5 }]; a NaN does not cast and
    an infinity fails the validators. *)
Definition rating_path (r : option jsint) : option (option Z) :=
  match r with
  | None => Some None
  | Some (IInt z) => if (1 <=? z) && (z <=? 5) then Some (Some z) else None
  | Some INaN | Some (IInf _) => None
  end.

Definition create_feedback (e : env) (fb1 fb2 : value) (r : option jsint)
    (s : state) : (feedback_doc * state) + store_error :=
  if connected e then
    let f1 := string_path false false false fb1 in
    let f2 := string_path false false false fb2 in
    let rt := rating_path r in
    match f1, f2, rt with
    | Some f1', Some f2', Some rt' =>
        let d := {| fb_id := next_id s; feedback1 := f1'; feedback2 := f2';
                    rating := rt'; fb_timestamp := date_now e |} in
        inl (d, insert_feedback d s)
    | _, _, _ =>
        inr (ValidationError (failed "feedback1" f1 ++ failed "feedback2" f2
                              ++ failed "rating" rt))
    end
  else inr Unavailable.

(** [POST /api/feedback]. *)
Definition submit_feedback (e : env) (b : object) (s : state) : state * response :=
  let fb1 := get b "feedback1" in
  let fb2 := get b "feedback2" in
  let r := get b "rating" in
  if negb (truthy fb1) && negb (truthy fb2) then
    (s, status_json 400
          (Envelope false "At least one feedback field required" None None))
  else if truthy r && (lt r 1 || gt r 5) then
    (s, status_json 400
          (Envelope false "Rating must be between 1 and 5" None None))
  else
    match create_feedback e fb1 fb2
            (if truthy r then Some (parseInt r) else None) s with
    | inl (_, s1) =>
        (s1, json (Envelope true "Feedback submitted successfully" None None))
    | inr err =>
        (s, status_json 500
              (Failure "Server error during feedback submission: " err))
    end.

(** [GET /api/admin/stats]. *)
Definition stats (e : env) (s : state) : response :=
  if connected e then
    json (StatsObj (Z.of_nat (length (Registration s)))
                   (Z.of_nat (length (Feedback s))) 3 None)
  else
    status_json 500 (StatsObj 0 0 3 (Some "Database connection issue")).

Section Search.
(** [new RegExp(pattern, 'i')]: [None] when the pattern does not
    compile, otherwise the test it performs on a string. *)
Variable RegExp_i : string -> option (string -> bool).

Definition regex_on (test : string -> bool) (field : option string) : bool :=
  match field with
  | Some f => test f
  | None => false
  end.

(** [{ $or: [{firstName: regex}, {lastName: regex}, {email: regex},
    {location: regex}] }]. *)
Definition or_filter (test : string -> bool) (d : registration_doc) : bool :=
  test (firstName d) || test (lastName d) || test (email d)
  || regex_on test (location d).

(** [GET /api/admin/registrations]. *)
Definition list_registrations (e : env) (query : object) (s : state) : response :=
  let degraded := status_json 500 (RegistrationList []) in
  let search := get query "search" in
  let filter :=
    if truthy search then
      match RegExp_i (to_string search) with
      | Some test => Some (or_filter test)
      | None => None
      end
    else Some (fun _ => true) in
  match filter with
  | None => degraded
  | Some keep =>
      if connected e then
        json (RegistrationList
                (take 200 (sort_newest timestamp
                             (List.filter keep (Registration s)))))
      else degraded
  end.
End Search.

(** [fb.feedback1 || fb.feedback2 || 'No feedback text']. *)
Definition first_text (f : feedback_doc) : string :=
  match feedback1 f with
  | Some (String a t) => String a t
  | _ => match feedback2 f with
         | Some (String a t) => String a t
         | _ => "No feedback text"
         end
  end.

Definition view (f : feedback_doc) : feedback_view :=
  {| name := "Customer Feedback";
     text := first_text f;
     view_rating := rating f;
     view_timestamp := fb_timestamp f;
     view_id := fb_id f |}.

(** [GET /api/admin/feedbacks]. *)
Definition list_feedbacks (e : env) (s : state) : response :=
  if connected e then
    json (FeedbackList
            (map view (take 100 (sort_newest fb_timestamp (Feedback s)))))
  else status_json 500 (FeedbackList []).

(** [POST /api/admin/login]. *)
Definition login (b : object) : response :=
  if strict_eq (get b "username") (VStr "admin@mtn.ng")
     && strict_eq (get b "password") (VStr "1234")
  then json (Envelope true "Login successful" None (Some "demo-token"))
  else status_json 401 (Envelope false "Invalid credentials" None None).

(** ** The sequence of requests

    The requests that write, handled one after the other. *)
Inductive request : Type :=
| PostRegister (e : env) (b : object)
| PostFeedback (e : env) (b : object).

Definition handle (r : request) (s : state) : state * response :=
  match r with
  | PostRegister e b => register e b s
  | PostFeedback e b => submit_feedback e b s
  end.

Fixpoint run (rs : list request) (s : state) : state * list response :=
  match rs with
  | [] => (s, [])
  | r :: rs' =>
      let '(s1, a) := handle r s in
      let '(s2, answers) := run rs' s1 in
      (s2, a :: answers)
  end.

End MongoServer.

(* ===================================================================== *)
(** * The routers of [routes/] *)
(* ===================================================================== *)

Module Routes.

(** Response bodies of the handlers modelled here:
    [{success, message}] with an optional [token]. *)
Record envelope : Type := {
  success : bool;
  message : string;
  token : option string
}.

Record response : Type := { status : Z; body : envelope }.

(** [router.post('/login')] of the admin router. *)
Definition login (b : object) : response :=
  if strict_eq (get b "username") (VStr "admin@mtn.ng")
     && strict_eq (get b "password") (VStr "1234")
  then {| status := 200;
          body := {| success := true; message := "Login successful";
                     token := None |} |}
  else {| status := 401;
          body := {| success := false; message := "Invalid credentials";
                     token := None |} |}.

(** The registration router, before the model is built:
    [{...req.body, consent: req.body.consent === true
                            || req.body.consent === 'true'}]. *)
Definition registrationData (b : object) : object :=
  <["consent" := VBool (strict_eq (get b "consent") (VBool true)
                        || strict_eq (get b "consent") (VStr "true"))]> b.

End Routes.

(* ===================================================================== *)
(** * The browser client ([public/api.js]) *)
(* ===================================================================== *)

Module Client.

(** [response.ok]. *)
Definition ok (status : Z) : bool := (200 <=? status) && (status <=? 299).

(** [apiRequest] on a response that arrived with a JSON body: the body
    when the response is ok, otherwise the message of the error thrown,
    [data.message || `HTTP ${response.status}`].  [message] is
    [data.message]. *)
Definition apiRequest {D : Type} (status : Z) (message : value) (data : D)
  : D + string :=
  if ok status then inl data
  else inr (to_string (or_else message (VStr ("HTTP " +:+ pretty status)))).

(** [data.message] for the bodies of the file-backed server: only the
    [{success, message}] envelope has the key. *)
Definition file_message (p : FileServer.payload) : value :=
  match p with
  | FileServer.Envelope _ m _ _ => VStr m
  | _ => VUndef
  end.

(** [apiRequest] against the file-backed server. *)
Definition from_file (r : FileServer.response) : FileServer.payload + string :=
  apiRequest (FileServer.status r) (file_message (FileServer.body r))
    (FileServer.body r).

Section Database.
(** [err.message] of what the database layer throws. *)
Variable error_message : MongoServer.store_error -> string.

Definition mongo_message (p : MongoServer.payload) : value :=
  match p with
  | MongoServer.Envelope _ m _ _ => VStr m
  | MongoServer.Failure prefix err => VStr (prefix +:+ error_message err)
  | _ => VUndef
  end.

(** [apiRequest] against the database-backed server. *)
Definition from_mongo (r : MongoServer.response) : MongoServer.payload + string :=
  apiRequest (MongoServer.status r) (mongo_message (MongoServer.body r))
    (MongoServer.body r).
End Database.

(** The query [getRegistrations(searchQuery)] makes the server see:
    none for the empty string, otherwise [?search=] with the encoded
    term, which the server decodes again. *)
Definition getRegistrations_query (searchQuery : string) : object :=
  if String.eqb searchQuery "" then ∅ else {[ "search" := VStr searchQuery ]}.

(** What a submit function of the page ends in. *)
Inductive action : Type :=
| Alert (msg : string)
| Post (payload : object)
| Nothing.



(** [submitRegistrationProduction]: the object parsed from local storage,
    [window.selectedInterests], the value of the [otherInterest] input
    ([None] without the element), and whether the page has the button. *)
Definition submitRegistrationProduction (registrationData : object)
    (selectedInterests : value) (otherInterest : option string)
    (submitBtn : bool) : action :=
  let interests := or_else selectedInterests (VArr []) in
  let other := match otherInterest with
               | Some t => or_else (VStr t) (VStr "")
               | None => VStr ""
               end in
  if strict_eq (length_of interests) (VNum 0) then
    Alert "Please select at least one area of interest"
  else if gt (length_of interests) 2 then
    Alert "Maximum 2 areas of interest allowed"
  else
    let data := <[ "consent" := VBool true ]>
                  (<[ "otherInterest" := other ]>
                     (<[ "interests" := interests ]> registrationData)) in
    if submitBtn then Post data else Nothing.

End Client.

(* ===================================================================== *)
(** * Words of the specification *)
(* ===================================================================== *)

(** [t] occurs in [s]. *)
Definition substring (t s : string) : Prop :=
  exists pre post, s = pre +:+ t +:+ post.

(** A mandatory field is absent or empty. *)
Definition absent_or_empty (v : value) : Prop :=
  v = VUndef \/ v = VNull \/ v = VStr "".

(** The seven mandatory fields, in the order of the form. *)
Definition mandatory : list string :=
  ["firstName"; "lastName"; "email"; "phone"; "location"; "gender"; "channel"].

(** The number is zero: [0], or a fraction written with zeros only. *)
Definition zero_number (v : value) : Prop :=
  v = VNum 0
  \/ exists neg frac, v = VFrac neg 0 frac /\ N.of_uint frac = 0%N.

(** A value that counts as no value: absent, [null], [false], the empty
    text or zero. *)
Definition falsy (v : value) : Prop :=
  v = VUndef \/ v = VNull \/ v = VBool false \/ v = VStr "" \/ zero_number v.

(** The names, separated by a comma and a space. *)
Fixpoint comma_list (names : list string) : string :=
  match names with
  | [] => ""
  | [name] => name
  | name :: rest => name +:+ ", " +:+ comma_list rest
  end.

(** A free-text field as the data model has it: a string, or left out. *)
Definition text_or_absent (v : value) : Prop :=
  v = VUndef \/ v = VNull \/ exists t, v = VStr t.

(** The search of the specification on one field and on one record of
    the file-backed store: the term occurs in the lower-cased field. *)
Definition field_has (term : string) (field : value) : bool :=
  match field with
  | VStr f => includes (toLowerCase f) term
  | _ => false
  end.

Definition selected (term : string) (r : FileServer.registration) : bool :=
  field_has term (FileServer.firstName r)
  || field_has term (FileServer.lastName r)
  || field_has term (FileServer.email r)
  || field_has term (FileServer.location r).

(** The record has the term in one of its four searched fields. *)
Definition has_term (term : string) (r : FileServer.registration) : Prop :=
  exists f,
    (FileServer.firstName r = VStr f \/ FileServer.lastName r = VStr f
     \/ FileServer.email r = VStr f \/ FileServer.location r = VStr f)
    /\ substring term (toLowerCase f).

(** The four searched fields of a stored registration are strings. *)
Definition searchable (r : FileServer.registration) : Prop :=
  (exists t, FileServer.firstName r = VStr t)
  /\ (exists t, FileServer.lastName r = VStr t)
  /\ (exists t, FileServer.email r = VStr t)
  /\ (exists t, FileServer.location r = VStr t).

(** The query string [?search=q], or no query string at all. *)
Definition search_query (term : option string) : object :=
  match term with
  | Some q => {[ "search" := VStr q ]}
  | None => ∅
  end.

(** Newest first. *)
Definition newest_first {A : Type} (key : A -> Z) (l : list A) : Prop :=
  StronglySorted (fun a b => key b <= key a) l.

(* ===================================================================== *)
(** * Example data *)
(* ===================================================================== *)

(** Two stored registrations used in the examples below. *)
Definition ada : FileServer.registration :=
  {| FileServer.reg_id := 1000;
     FileServer.firstName := VStr "Ada";
     FileServer.lastName := VStr "Lovelace";
     FileServer.email := VStr "a@x.com";
     FileServer.phone := VStr "0801";
     FileServer.location := VStr "Lagos";
     FileServer.gender := VStr "female";
     FileServer.channel := VStr "web";
     FileServer.interests := VArr [];
     FileServer.otherInterest := VStr "";
     FileServer.consent := VBool true;
     FileServer.reg_timestamp := 1000 |}.

Definition bob : FileServer.registration :=
  {| FileServer.reg_id := 2000;
     FileServer.firstName := VStr "Bob";
     FileServer.lastName := VStr "Stone";
     FileServer.email := VStr "b@x.com";
     FileServer.phone := VStr "0802";
     FileServer.location := VStr "Abuja";
     FileServer.gender := VStr "male";
     FileServer.channel := VStr "radio";
     FileServer.interests := VArr [];
     FileServer.otherInterest := VStr "";
     FileServer.consent := VBool false;
     FileServer.reg_timestamp := 2000 |}.

Definition two_registrations : FileServer.state :=
  {| FileServer.registrations := [ada; bob];
     FileServer.feedbacks := [];
     FileServer.registrations_json := [ada; bob];
     FileServer.feedbacks_json := [] |}.

(** A payload that leaves out the first name and sends an empty phone. *)
Definition incomplete_payload : object :=
  {[ "lastName" := VStr "Lovelace"; "email" := VStr "a@x.com";
     "phone" := VStr ""; "location" := VStr "Lagos";
     "gender" := VStr "female"; "channel" := VStr "web" ]}.

(** A payload that leaves out the first name and sends the number 0 as
    phone. *)
Definition zero_phone : object :=
  {[ "lastName" := VStr "Lovelace"; "email" := VStr "a@x.com";
     "phone" := VNum 0; "location" := VStr "Lagos";
     "gender" := VStr "female"; "channel" := VStr "web" ]}.

Definition file_env : FileServer.env :=
  {| FileServer.date_now := 3000; FileServer.new_date := 3000;
     FileServer.write_ok := true; FileServer.failed_write := FileServer.Untouched |}.

(** An engine that reads no text as a date and a library that accepts
    neither identifiers nor query operators from a body. *)
Definition mongo_env : MongoServer.env :=
  {| MongoServer.date_now := 3000; MongoServer.connected := true;
     MongoServer.new_Date := fun _ => None;
     MongoServer.own_paths := fun _ => None;
     MongoServer.conditions := fun _ => None |}.

Definition empty_db : MongoServer.state :=
  {| MongoServer.Registration := []; MongoServer.Feedback := [];
     MongoServer.next_id := 0%N; MongoServer.console := [] |}.

(** A complete registration payload and a feedback payload. *)
Definition ada_payload : object :=
  {[ "firstName" := VStr "Ada"; "lastName" := VStr "Lovelace";
     "email" := VStr "a@x.com"; "phone" := VStr "0801";
     "location" := VStr "Lagos"; "gender" := VStr "female";
     "channel" := VStr "web" ]}.

Definition great_event : object :=
  {[ "feedback1" := VStr "Great event"; "rating" := VNum 5 ]}.

Definition empty_store : FileServer.state :=
  {| FileServer.registrations := []; FileServer.feedbacks := [];
     FileServer.registrations_json := []; FileServer.feedbacks_json := [] |}.

(** The payload passes the checks the two registration handlers make
    themselves: every mandatory field is truthy, and [interests] is not
    a truthy value whose [length] is above 2. *)
Definition passes_checks (b : object) : Prop :=
  (forall field, In field FileServer.required -> truthy (get b field) = true)
  /\ truthy (get b "interests") && gt (length_of (get b "interests")) 2 = false.


(** A second payload of the same person, with the email typed in capitals. *)
Definition ada_again : object :=
  {[ "firstName" := VStr "Ada"; "lastName" := VStr "King";
     "email" := VStr " A@X.COM"; "phone" := VStr "0809";
     "location" := VStr "Abuja"; "gender" := VStr "female";
     "channel" := VStr "friend"; "interests" := VArr [VStr "5G"] ]}.

Definition no_regexp : string -> option (string -> bool) := fun _ => None.

Definition later_env : FileServer.env :=
  {| FileServer.date_now := 4000; FileServer.new_date := 4000;
     FileServer.write_ok := true; FileServer.failed_write := FileServer.Untouched |}.


(** The documents the schema builds from the two payloads, for an
    identifier and a timestamp. *)
Definition ada_doc (id : N) (now : Z) : MongoServer.registration_doc :=
  {| MongoServer._id := id;
     MongoServer.firstName := "Ada";
     MongoServer.lastName := "Lovelace";
     MongoServer.email := "a@x.com";
     MongoServer.phone := Some "0801";
     MongoServer.location := Some "Lagos";
     MongoServer.gender := Some "female";
     MongoServer.channel := Some "web";
     MongoServer.interests := [];
     MongoServer.otherInterest := None;
     MongoServer.consent := Some false;
     MongoServer.timestamp := now |}.


(** A feedback payload whose rating is zero. *)
Definition rating_zero : object :=
  {[ "feedback1" := VStr "Great event"; "rating" := VNum 0 ]}.



(** A feedback payload whose rating is seven, one whose rating is four
    and a half, one whose rating is a half, and one whose rating is the
    text "7 stars". *)
Definition rating_seven : object :=
  {[ "feedback1" := VStr "Too long"; "rating" := VNum 7 ]}.




(** A feedback payload that holds nothing but white space. *)
Definition blank_feedback : object :=
  {[ "feedback1" := VStr "   " ]}.

(** A complete registration payload whose consent is the string "true". *)
Definition consent_as_text : object :=
  <[ "consent" := VStr "true" ]> ada_payload.

(** The right credentials. *)
Definition admin_credentials : object :=
  {[ "username" := VStr "admin@mtn.ng"; "password" := VStr "1234" ]}.

Definition wrong_password : object :=
  {[ "username" := VStr "admin@mtn.ng"; "password" := VStr "12345" ]}.

(** A request served while the database cannot be reached. *)
Definition offline_env : MongoServer.env :=
  {| MongoServer.date_now := 5000; MongoServer.connected := false;
     MongoServer.new_Date := fun _ => None;
     MongoServer.own_paths := fun _ => None;
     MongoServer.conditions := fun _ => None |}.

(** Two feedback documents that differ in [feedback2] only. *)
Definition cold_room : MongoServer.feedback_doc :=
  {| MongoServer.fb_id := 1%N;
     MongoServer.feedback1 := Some "Great talks";
     MongoServer.feedback2 := Some "Cold room";
     MongoServer.rating := Some 4;
     MongoServer.fb_timestamp := 1000 |}.

Definition warm_room : MongoServer.feedback_doc :=
  {| MongoServer.fb_id := 1%N;
     MongoServer.feedback1 := Some "Great talks";
     MongoServer.feedback2 := Some "Warm room";
     MongoServer.rating := Some 4;
     MongoServer.fb_timestamp := 1000 |}.

Definition db_with (f : MongoServer.feedback_doc) : MongoServer.state :=
  {| MongoServer.Registration := [ada_doc 0%N 900]; MongoServer.Feedback := [f];
     MongoServer.next_id := 2%N; MongoServer.console := [] |}.

(** The display text of the specification: the parts that are not blank,
    joined by [" | "]. *)
Definition nonblank (t : string) : bool := negb (String.eqb (trim t) "").

Definition joined_text (f1 f2 : string) : string :=
  match nonblank f1, nonblank f2 with
  | true, true => f1 +:+ " | " +:+ f2
  | true, false => f1
  | false, true => f2
  | false, false => ""
  end.

(** The login is given the one fixed pair of credentials. *)
Definition fixed_pair (b : object) : Prop :=
  get b "username" = VStr "admin@mtn.ng" /\ get b "password" = VStr "1234".

(** A payload whose first name is a number: it passes the checks of the
    file-backed handler, which stores the number. *)
Definition numeric_name : object :=
  <[ "firstName" := VNum 42 ]> ada_payload.

(* ===================================================================== *)
(** * Words for the properties of the remaining code *)
(* ===================================================================== *)

(** The record the file-backed handler builds from an accepted payload. *)
Definition new_registration (e : FileServer.env) (b : object)
  : FileServer.registration :=
  {| FileServer.reg_id := FileServer.date_now e;
     FileServer.firstName := get b "firstName";
     FileServer.lastName := get b "lastName";
     FileServer.email := get b "email";
     FileServer.phone := get b "phone";
     FileServer.location := get b "location";
     FileServer.gender := get b "gender";
     FileServer.channel := get b "channel";
     FileServer.interests := or_else (get b "interests") (VArr []);
     FileServer.otherInterest := or_else (get b "otherInterest") (VStr "");
     FileServer.consent := or_else (get b "consent") (VBool false);
     FileServer.reg_timestamp := FileServer.new_date e |}.

(** No registration has the email of a later one, under [===]. *)
Fixpoint distinct_emails (l : list FileServer.registration) : Prop :=
  match l with
  | [] => True
  | r :: l' =>
      Forall (fun r' => strict_eq (FileServer.email r') (FileServer.email r) = false
                        /\ strict_eq (FileServer.email r) (FileServer.email r') = false)
             l'
      /\ distinct_emails l'
  end.

(** Each file holds a leading part of its array. *)
Definition files_behind (s : FileServer.state) : Prop :=
  FileServer.registrations_json s `prefix_of` FileServer.registrations s
  /\ FileServer.feedbacks_json s `prefix_of` FileServer.feedbacks s.


(** Both feedback fields are free of white space at either end. *)
Definition trimmed (f : FileServer.feedback) : Prop :=
  trim (FileServer.feedback1 f) = FileServer.feedback1 f
  /\ trim (FileServer.feedback2 f) = FileServer.feedback2 f.


(** The value is truthy and is not a string. *)
Definition truthy_non_text (v : value) : Prop :=
  truthy v = true /\ forall t, v <> VStr t.

(** How many requests of a run were registrations, and feedbacks,
    answered 200. *)
Definition registered (ra : FileServer.request * FileServer.response) : bool :=
  match ra.1 with
  | FileServer.PostRegister _ _ => FileServer.status ra.2 =? 200
  | FileServer.PostFeedback _ _ => false
  end.

Definition commented (ra : FileServer.request * FileServer.response) : bool :=
  match ra.1 with
  | FileServer.PostRegister _ _ => false
  | FileServer.PostFeedback _ _ => FileServer.status ra.2 =? 200
  end.





(** A stored document of the database-backed server is normalized: names
    and email trimmed and not empty, the email in lower case. *)
Definition normalized (d : MongoServer.registration_doc) : Prop :=
  trim (MongoServer.firstName d) = MongoServer.firstName d
  /\ MongoServer.firstName d <> ""
  /\ trim (MongoServer.lastName d) = MongoServer.lastName d
  /\ MongoServer.lastName d <> ""
  /\ trim (MongoServer.email d) = MongoServer.email d
  /\ toLowerCase (MongoServer.email d) = MongoServer.email d
  /\ MongoServer.email d <> "".

(** A stored rating is absent or within 1 and 5. *)
Definition rating_in_range (d : MongoServer.feedback_doc) : Prop :=
  match MongoServer.rating d with
  | None => True
  | Some z => 1 <= z <= 5
  end.

(** Example runs. *)
Definition failing_disk : FileServer.env :=
  {| FileServer.date_now := 5000; FileServer.new_date := 5000;
     FileServer.write_ok := false; FileServer.failed_write := FileServer.Unreadable |}.

Definition three_interests : object :=
  <[ "interests" := VArr [VStr "5G"; VStr "Fintech"; VStr "Cloud"] ]> ada_payload.

Definition bob_payload : object :=
  {[ "firstName" := VStr "Bob"; "lastName" := VStr "Stone";
     "email" := VStr "b@x.com"; "phone" := VStr "0802";
     "location" := VStr "Abuja"; "gender" := VStr "male";
     "channel" := VStr "radio" ]}.

Definition busy_morning : list FileServer.request :=
  [FileServer.PostRegister file_env ada_payload;
   FileServer.PostFeedback file_env great_event;
   FileServer.PostRegister later_env ada_payload;
   FileServer.PostRegister later_env bob_payload;
   FileServer.PostFeedback later_env blank_feedback].

Definition numeric_feedback : object :=
  {[ "feedback1" := VNum 5 ]}.

(** A feedback whose rating is four hundred nines followed by a letter:
    no number as a whole, so the range check lets it pass, while
    [parseInt] reads the nines. *)
Definition endless_rating : object :=
  {[ "feedback1" := VStr "ok";
     "rating" := VStr (String.concat "" (repeat "9" 400) +:+ "x") ]}.

(** Ada's payload with a timestamp that is no date, and with an
    identifier of its own. *)
Definition dated_yesterday : object :=
  <[ "timestamp" := VStr "yesterday" ]> ada_payload.

Definition with_own_id : object :=
  <[ "_id" := VStr "650000000000000000000001" ]> ada_payload.

(** A library that reads every identifier a body names as the same one. *)
Definition one_id_env : MongoServer.env :=
  {| MongoServer.date_now := 3000; MongoServer.connected := true;
     MongoServer.new_Date := fun _ => None;
     MongoServer.own_paths := fun _ => Some (Some 7%N);
     MongoServer.conditions := fun _ => None |}.

(* ===================================================================== *)
(** * Lemmas on the language fragment *)
(* ===================================================================== *)

Lemma startsWith_spec (s p : string) :
  startsWith s p = true <-> exists post, s = p +:+ post.
Proof.
  revert s. induction p as [|b p IH]; intros s; simpl.
  - split; [intros _; by exists s | done].
  - destruct s as [|a s]; simpl.
    + split; [done | intros [post H]; discriminate].
    + rewrite andb_true_iff, IH, Ascii.eqb_eq. split.
      * intros [-> [post ->]]. by exists post.
      * intros [post H]. injection H as -> ->. eauto.
Qed.

Lemma includes_spec (s t : string) :
  includes s t = true <-> substring t s.
Proof.
  unfold substring. induction s as [|a s IH].
  - cbn [includes]. rewrite orb_false_r, startsWith_spec. split.
    + intros [post H]. by exists "", post.
    + intros [pre [post H]]. destruct pre; [by exists post | discriminate].
  - cbn [includes]. rewrite orb_true_iff, startsWith_spec, IH. split.
    + intros [[post H] | [pre [post H]]].
      * by exists "", post.
      * exists (String a pre), post. simpl. by rewrite H.
    + intros [pre [post H]]. destruct pre as [|a' pre]; simpl in H.
      * left. by exists post.
      * right. injection H as -> ->. eauto.
Qed.

Lemma truthy_absent_or_empty (v : value) :
  absent_or_empty v -> truthy v = false.
Proof. by intros [-> | [-> | ->]]. Qed.

Lemma truthy_text (v : value) :
  text_or_absent v -> (truthy v = false <-> absent_or_empty v).
Proof.
  unfold absent_or_empty. intros [Hv | [Hv | [t Hv]]]; subst v; simpl.
  - tauto.
  - tauto.
  - destruct t; simpl; split; try done; [tauto |].
    intros [H | [H | H]]; discriminate.
Qed.

(** ** Mandatory fields *)

Lemma file_missing_In (b : object) (field : string) :
  In field (FileServer.missing b)
  <-> In field FileServer.required /\ truthy (get b field) = false.
Proof.
  unfold FileServer.missing. rewrite filter_In, negb_true_iff. tauto.
Qed.

Lemma mongo_missing_file (b : object) :
  MongoServer.missing b = FileServer.missing b.
Proof. reflexivity. Qed.

Lemma nonempty_length {A : Type} (x : A) (l : list A) :
  In x l -> (0 <? Z.of_nat (length l)) = true.
Proof. destruct l; [done |]. intros _. apply Z.ltb_lt. simpl. lia. Qed.

Lemma empty_length {A : Type} (l : list A) :
  (0 <? Z.of_nat (length l)) = false <-> l = [].
Proof.
  destruct l; simpl; [done |]. split; [| done].
  intros H. apply Z.ltb_ge in H. lia.
Qed.

(** ** The stable sort *)

Section NewestFirstFacts.
Context {A : Type} (key : A -> Z).

Lemma insert_newest_perm (x : A) (l : list A) :
  Permutation (insert_newest key x l) (x :: l).
Proof.
  induction l as [|y l IH]; simpl; [done |].
  destruct (key x <? key y); [| done].
  rewrite IH. apply perm_swap.
Qed.

Lemma sort_newest_perm (l : list A) : Permutation (sort_newest key l) l.
Proof.
  induction l as [|x l IH]; simpl; [done |].
  by rewrite insert_newest_perm, IH.
Qed.

Lemma insert_newest_sorted (x : A) (l : list A) :
  newest_first key l -> newest_first key (insert_newest key x l).
Proof.
  unfold newest_first. induction 1 as [|y l Hl IH Hy]; simpl.
  - repeat constructor.
  - destruct (Z.ltb_spec (key x) (key y)) as [Hlt | Hge].
    + constructor; [done |].
      rewrite insert_newest_perm. constructor; [lia | done].
    + constructor; [by constructor |].
      constructor; [lia |].
      eapply Forall_impl; [exact Hy |]. simpl. intros z Hz. lia.
Qed.

Lemma sort_newest_sorted (l : list A) : newest_first key (sort_newest key l).
Proof.
  induction l as [|x l IH]; simpl; [constructor |].
  by apply insert_newest_sorted.
Qed.

(** Stability: records with one timestamp keep their relative order. *)
Lemma insert_newest_same_key (k : Z) (x : A) (l : list A) :
  newest_first key l ->
  List.filter (fun a => key a =? k) (insert_newest key x l)
  = List.filter (fun a => key a =? k) (x :: l).
Proof.
  unfold newest_first. induction 1 as [|y l Hl IH Hy]; [done |].
  cbn [insert_newest]. destruct (Z.ltb_spec (key x) (key y)) as [Hlt | Hge]; [| done].
  cbn [List.filter]. rewrite IH. cbn [List.filter].
  destruct (Z.eqb_spec (key y) k) as [Hyk | Hyk];
    destruct (Z.eqb_spec (key x) k) as [Hxk | Hxk]; try done.
  lia.
Qed.

Lemma sort_newest_stable (k : Z) (l : list A) :
  List.filter (fun a => key a =? k) (sort_newest key l)
  = List.filter (fun a => key a =? k) l.
Proof.
  induction l as [|x l IH]; [done |]. cbn [sort_newest].
  rewrite insert_newest_same_key by apply sort_newest_sorted.
  cbn [List.filter]. by rewrite IH.
Qed.

Lemma sort_newest_In (x : A) (l : list A) : In x (sort_newest key l) <-> In x l.
Proof.
  split; apply Permutation_in;
    [apply sort_newest_perm | symmetry; apply sort_newest_perm].
Qed.

Lemma sort_newest_length (l : list A) : length (sort_newest key l) = length l.
Proof. apply Permutation_length, sort_newest_perm. Qed.
End NewestFirstFacts.

(** The first documents of a list. *)
Lemma newest_first_take {A : Type} (key : A -> Z) (n : nat) (l : list A) :
  newest_first key l -> newest_first key (take n l).
Proof.
  unfold newest_first. intros H. revert n.
  induction H as [|x l Hl IH Hx]; intros [|n]; simpl; try constructor.
  - apply IH.
  - by apply Forall_take.
Qed.

Lemma In_take {A : Type} (n : nat) (l : list A) (x : A) :
  In x (take n l) -> In x l.
Proof.
  revert n. induction l as [|a l IH]; intros [|n]; simpl; try done.
  intros [-> | H]; [by left | right; eauto].
Qed.

(** A callback that never throws filters as [List.filter] does. *)
Lemma filter_throwing_total {A : Type} (p : A -> option bool) (q : A -> bool)
    (l : list A) :
  (forall x, In x l -> p x = Some (q x)) ->
  filter_throwing p l = Some (List.filter q l).
Proof.
  induction l as [|x l IH]; intros Hp; [done |]. simpl.
  rewrite (Hp x) by (by left). rewrite IH by (intros; apply Hp; by right).
  by destruct (q x).
Qed.

Lemma field_has_spec (term : string) (v : value) :
  field_has term v = true <-> exists f, v = VStr f /\ substring term (toLowerCase f).
Proof.
  destruct v; simpl; try (split; [done | by intros [f [? _]]]).
  rewrite includes_spec. split; [eauto |]. by intros [f [[= ->] H]].
Qed.

Lemma selected_spec (term : string) (r : FileServer.registration) :
  selected term r = true <-> has_term term r.
Proof.
  unfold selected, has_term. rewrite !orb_true_iff, !field_has_spec. split.
  - intros [[[H | H] | H] | H]; destruct H as [f [Hf Hs]]; exists f; tauto.
  - intros [f [[H | [H | [H | H]]] Hs]]; eauto 10.
Qed.

Lemma matches_searchable (term : string) (r : FileServer.registration) :
  searchable r -> FileServer.matches term r = Some (selected term r).
Proof.
  intros [[a Ha] [[b Hb] [[c Hc] [d Hd]]]].
  unfold FileServer.matches, selected. rewrite Ha, Hb, Hc, Hd. simpl.
  by repeat (destruct (includes _ term); simpl).
Qed.

Lemma string_length_zero (s : string) : String.length s = 0%nat <-> s = "".
Proof. by destruct s. Qed.

Lemma search_term_string (q : string) :
  FileServer.search_term (VStr q)
  = Some (if String.eqb (trim q) "" then None else Some (trim (toLowerCase q))).
Proof.
  unfold FileServer.search_term. simpl.
  destruct (String.eqb_spec q "") as [-> | Hq]; [done |]. simpl.
  destruct (String.eqb_spec (trim q) "") as [Ht | Ht].
  - by rewrite Ht.
  - destruct (trim q); [done | by simpl].
Qed.

(** The search needs text in the four fields: once a registration with
    a number as first name is stored, a search that is not blank is
    answered 500, while the plain list still works. *)
Lemma search_over_numeric_name :
  FileServer.status (FileServer.register file_env numeric_name empty_store).2 = 200
  /\ FileServer.list_registrations (search_query (Some "ada"))
       (FileServer.register file_env numeric_name empty_store).1
     = FileServer.status_json 500 (FileServer.ErrorObj "Failed to fetch registrations")
  /\ FileServer.status
       (FileServer.list_registrations (search_query None)
          (FileServer.register file_env numeric_name empty_store).1) = 200.
Proof. by vm_compute. Qed.

(** ** Registration on the database-backed server *)

Lemma passes_checks_missing (b : object) :
  passes_checks b -> FileServer.missing b = [].
Proof.
  intros [H _]. unfold FileServer.missing, FileServer.required. simpl.
  by rewrite !H by (simpl; auto 10).
Qed.

Lemma passes_checks_interests (b : object) :
  passes_checks b ->
  truthy (get b "interests") && gt (length_of (get b "interests")) 2 = false.
Proof. by intros [_ H]. Qed.







(** ** Registration on the file-backed server *)




Lemma passes_checks_ada_payload : passes_checks ada_payload.
Proof.
  split; [| by vm_compute].
  intros field H. simpl in H.
  repeat (destruct H as [<- | H]; [by vm_compute |]). done.
Qed.


(** ** Feedback *)


Lemma gt_number (z k : Z) : gt (VNum z) k = (k <? z).
Proof. unfold gt. simpl. by rewrite Z.mul_1_r. Qed.




Lemma some_feedback (b : object) :
  truthy (get b "feedback1") = true \/ truthy (get b "feedback2") = true ->
  negb (truthy (get b "feedback1")) && negb (truthy (get b "feedback2")) = false.
Proof. intros [-> | ->]; simpl; [done | apply andb_false_r]. Qed.

(** ** Display text and login *)

Lemma trim_empty_of_empty (t : string) : String.eqb t "" = true -> nonblank t = false.
Proof. intros H. apply String.eqb_eq in H. by subst t. Qed.

Lemma display_text_joined (f : FileServer.feedback) :
  FileServer.display_text f
  = joined_text (FileServer.feedback1 f) (FileServer.feedback2 f).
Proof.
  unfold FileServer.display_text, joined_text. simpl.
  destruct (String.eqb (FileServer.feedback1 f) "") eqn:E1;
    destruct (String.eqb (FileServer.feedback2 f) "") eqn:E2; simpl;
    rewrite ?(trim_empty_of_empty _ E1), ?(trim_empty_of_empty _ E2);
    fold (nonblank (FileServer.feedback1 f));
    fold (nonblank (FileServer.feedback2 f));
    destruct (nonblank (FileServer.feedback1 f));
    destruct (nonblank (FileServer.feedback2 f)); done.
Qed.

Lemma strict_eq_string (v : value) (t : string) :
  strict_eq v (VStr t) = true <-> v = VStr t.
Proof.
  destruct v; simpl; try (split; [done | intros [=]]).
  rewrite String.eqb_eq. split; [by intros -> | by intros [= ->]].
Qed.

Lemma credentials_check (b : object) :
  strict_eq (get b "username") (VStr "admin@mtn.ng")
  && strict_eq (get b "password") (VStr "1234") = true
  <-> fixed_pair b.
Proof. unfold fixed_pair. by rewrite andb_true_iff, !strict_eq_string. Qed.

(** X21: a payload whose two feedback fields are absent or empty is turned
    away with status 400 by both servers, and nothing is stored. *)
Lemma empty_feedback_rejected (fe : FileServer.env) (me : MongoServer.env)
    (b : object) (fs : FileServer.state) (ms : MongoServer.state) :
  absent_or_empty (get b "feedback1") ->
  absent_or_empty (get b "feedback2") ->
  FileServer.submit_feedback fe b fs
  = (fs, FileServer.status_json 400
           (FileServer.Envelope false "At least one feedback field is required"
              None None))
  /\ MongoServer.submit_feedback me b ms
     = (ms, MongoServer.status_json 400
              (MongoServer.Envelope false "At least one feedback field required"
                 None None)).
Proof.
  intros H1 H2. unfold FileServer.submit_feedback, MongoServer.submit_feedback.
  by rewrite (truthy_absent_or_empty _ H1), (truthy_absent_or_empty _ H2).
Qed.

(** X20: the registration router always hands a boolean consent to the model:
    [true] for the payload values [true] and ['true'], [false] for
    everything else. *)
Lemma router_consent_boolean (b : object) :
  exists c,
    get (Routes.registrationData b) "consent" = VBool c
    /\ (c = true <-> get b "consent" = VBool true \/ get b "consent" = VStr "true").
Proof.
  unfold Routes.registrationData, get at 1. rewrite lookup_insert_eq. simpl.
  eexists. split; [reflexivity |].
  destruct (get b "consent") as [| | [|] | | t | | |]; simpl;
    try (split; [done | by intros [[=] | [=]]]).
  - split; [by left | done].
  - rewrite String.eqb_eq. split; [intros ->; by right | by intros [[=] | [= ->]]].
Qed.

(** Ratings sent as text go through the same coercions: ["7"] is turned
    away, ["3"] is stored as 3, and a text that is no number passes the
    range check and is stored as what [parseInt] makes of it. *)
Lemma rating_as_text :
  (FileServer.submit_feedback file_env
     {[ "feedback1" := VStr "ok"; "rating" := VStr "7" ]} empty_store).2
  = FileServer.status_json 400
      (FileServer.Envelope false "Rating must be between 1 and 5" None None)
  /\ FileServer.rating <$>
       FileServer.feedbacks
         (FileServer.submit_feedback file_env
            {[ "feedback1" := VStr "ok"; "rating" := VStr "3" ]} empty_store).1
     = [Some (IInt 3)]
  /\ FileServer.rating <$>
       FileServer.feedbacks
         (FileServer.submit_feedback file_env
            {[ "feedback1" := VStr "ok"; "rating" := VStr "great" ]} empty_store).1
     = [Some INaN].
Proof. by vm_compute. Qed.

(** ** Digits *)

Lemma usize_nb_digits (d : Decimal.uint) :
  DecimalPos.Unsigned.usize d = N.of_nat (Decimal.nb_digits d).
Proof. induction d; simpl; rewrite ?IHd; lia. Qed.

(** The value of a digit followed by digits. *)
Lemma of_uint_step (d : Decimal.uint) :
  d <> Decimal.Nil ->
  Z.of_N (N.of_uint d)
  = Z.of_N (DecimalPos.Unsigned.hd d)
    * 10 ^ Z.of_nat (Decimal.nb_digits (DecimalPos.Unsigned.tl d))
    + Z.of_N (N.of_uint (DecimalPos.Unsigned.tl d)).
Proof.
  intros Hd. unfold N.of_uint.
  rewrite !DecimalPos.Unsigned.of_uint_alt.
  assert (H : DecimalPos.Unsigned.of_lu (Decimal.rev d)
              = (DecimalPos.Unsigned.of_lu (Decimal.rev (DecimalPos.Unsigned.tl d))
                 + DecimalPos.Unsigned.hd d
                   * 10 ^ DecimalPos.Unsigned.usize (DecimalPos.Unsigned.tl d))%N).
  { destruct d; try done; unfold Decimal.rev at 1; simpl Decimal.revapp;
      rewrite DecimalPos.Unsigned.of_lu_revapp; simpl; lia. }
  rewrite H, usize_nb_digits.
  rewrite N2Z.inj_add, N2Z.inj_mul, N2Z.inj_pow, nat_N_Z. simpl Z.of_N at 3. lia.
Qed.

Lemma of_uint_bound (d : Decimal.uint) :
  0 <= Z.of_N (N.of_uint d) < 10 ^ Z.of_nat (Decimal.nb_digits d).
Proof.
  induction d as [| d IH | d IH | d IH | d IH | d IH | d IH | d IH | d IH | d IH | d IH];
    [simpl; lia | ..];
    (rewrite of_uint_step by done;
     cbn [DecimalPos.Unsigned.hd DecimalPos.Unsigned.tl Decimal.nb_digits];
     rewrite Nat2Z.inj_succ, Z.pow_succ_r by lia; simpl Z.of_N; lia).
Qed.








(** ** Rounding *)







(** ** Numbers with a fraction *)

Lemma frac_value_bound (frac : Decimal.uint) :
  0 <= frac_value frac < 10 ^ frac_digits frac.
Proof. apply of_uint_bound. Qed.



Lemma scaled_zero (neg : bool) (int : N) (frac : Decimal.uint) :
  scaled neg int frac = 0 <-> int = 0%N /\ N.of_uint frac = 0%N.
Proof.
  pose proof (frac_value_bound frac) as Hf.
  unfold scaled, signed. unfold frac_value in *.
  assert (0 < 10 ^ frac_digits frac) by lia.
  destruct neg; split; try (intros [-> Hz]; rewrite Hz; simpl; lia); intros Hz;
    (assert (Z.of_N int = 0) by nia); split; lia.
Qed.




(** ** Values that count as no value *)

Lemma truthy_falsy (v : value) : truthy v = false <-> falsy v.
Proof.
  unfold falsy, zero_number. destruct v as [| | [|] | z | t | l | o | neg int frac];
    simpl; try (split; [by auto 10 | done]);
    try (split; [done |];
         intros [H | [H | [H | [H | [H | (? & ? & H & _)]]]]]; discriminate).
  - destruct (Z.eqb_spec z 0) as [-> | Hz]; simpl; split; try by auto 10.
    intros [H | [H | [H | [H | [H | (? & ? & H & _)]]]]]; try discriminate.
    by injection H.
  - destruct (String.eqb_spec t "") as [-> | Ht]; simpl; split; try by auto 10.
    intros [H | [H | [H | [H | [H | (? & ? & H & _)]]]]]; try discriminate.
    by injection H.
  - rewrite negb_false_iff, Z.eqb_eq, scaled_zero. split.
    + intros [-> Hf]. do 5 right. eauto.
    + intros [H | [H | [H | [H | [H | (n & f & H & Hf)]]]]]; try discriminate.
      by injection H as -> -> ->.
Qed.

Lemma falsy_absent_or_empty (v : value) : absent_or_empty v -> falsy v.
Proof. unfold falsy. intros [-> | [-> | ->]]; auto. Qed.

Lemma join_comma_list (names : list string) : join ", " names = comma_list names.
Proof.
  unfold join. induction names as [|x l IH]; [done |].
  destruct l; [done |]. cbn [String.concat comma_list] in *. by rewrite IH.
Qed.

Lemma filter_sublist {A : Type} (f : A -> bool) (l : list A) :
  List.filter f l `sublist_of` l.
Proof.
  induction l as [|x l IH]; simpl; [constructor |].
  destruct (f x); by constructor.
Qed.

Lemma mandatory_required : FileServer.required = mandatory.
Proof. reflexivity. Qed.

(** ** The checks on a rating *)



(** ** Registrations with a text email and no identifier *)


(* ===================================================================== *)
(** * The claims *)
(* ===================================================================== *)

(** C3, as amended: on the file-backed server, for every store whose
    records have text in the four searched fields and every search term,
    an absent or blank term lists all records, and any other term lists
    exactly the records in which the lower-cased and trimmed term occurs
    in the lower-cased first name, last name, email or location; the
    list is ordered newest first. *)
Theorem list_registrations_search (s : FileServer.state) (term : option string) :
  Forall searchable (FileServer.registrations s) ->
  exists results,
    FileServer.list_registrations (search_query term) s
    = FileServer.json (FileServer.RegistrationList results)
    /\ newest_first FileServer.reg_timestamp results
    /\ match term with
       | None => Permutation results (FileServer.registrations s)
       | Some q =>
           if String.eqb (trim q) ""
           then Permutation results (FileServer.registrations s)
           else
             let t := trim (toLowerCase q) in
             Permutation results
               (List.filter (selected t) (FileServer.registrations s))
             /\ forall r, In r results
                          <-> In r (FileServer.registrations s) /\ has_term t r
       end.
Proof.
  intros Hs. unfold FileServer.list_registrations, get.
  destruct term as [q |]; simpl.
  - rewrite lookup_singleton_eq. simpl. rewrite search_term_string.
    destruct (String.eqb (trim q) "").
    + eexists. split; [done |]. split; [apply sort_newest_sorted | apply sort_newest_perm].
    + rewrite (filter_throwing_total _ (selected (trim (toLowerCase q)))).
      * eexists. split; [done |]. split; [apply sort_newest_sorted |].
        split; [apply sort_newest_perm |].
        intros r. by rewrite sort_newest_In, filter_In, selected_spec.
      * intros r Hr. apply matches_searchable.
        rewrite Forall_forall in Hs. apply Hs. by apply list_elem_of_In.
  - rewrite lookup_empty. simpl.
    eexists. split; [done |]. split; [apply sort_newest_sorted | apply sort_newest_perm].
Qed.

(** The theorem at the two stored registrations and the term "ADA". *)
Lemma list_registrations_search_witness :
  Forall searchable (FileServer.registrations two_registrations)
  /\ exists results,
       FileServer.list_registrations (search_query (Some "ADA")) two_registrations
       = FileServer.json (FileServer.RegistrationList results)
       /\ newest_first FileServer.reg_timestamp results
       /\ Permutation results
            (List.filter (selected "ada") (FileServer.registrations two_registrations))
       /\ forall r, In r results
                    <-> In r (FileServer.registrations two_registrations)
                        /\ has_term "ada" r.
Proof.
  assert (H : Forall searchable (FileServer.registrations two_registrations)).
  { repeat constructor; simpl; eauto. }
  split; [exact H |].
  exact (list_registrations_search two_registrations (Some "ADA") H).
Defined.

(** C3, as stated, fails: the handler trims the term, so the padded term
    [" Ada "] lists Ada although [" ada "] occurs in none of her fields. *)
Lemma list_registrations_padded_term :
  trim " Ada " <> ""
  /\ FileServer.list_registrations (search_query (Some " Ada ")) two_registrations
     = FileServer.json (FileServer.RegistrationList [ada])
  /\ ~ has_term (toLowerCase " Ada ") ada.
Proof.
  split; [done |]. split; [by vm_compute |].
  rewrite <- selected_spec. by vm_compute.
Qed.

(** C2, as stated, fails: a payload without first name and with the
    number 0 as phone is answered with a message that names [phone],
    a field that is neither absent nor empty. *)
Lemma register_names_present_field :
  get zero_phone "phone" = VNum 0
  /\ ~ absent_or_empty (get zero_phone "phone")
  /\ FileServer.register file_env zero_phone two_registrations
     = (two_registrations,
        FileServer.status_json 400
          (FileServer.Envelope false "Missing required fields: firstName, phone"
             None None))
  /\ MongoServer.register mongo_env zero_phone empty_db
     = (empty_db,
        MongoServer.status_json 400
          (MongoServer.Envelope false "Missing required fields: firstName, phone"
             None None)).
Proof.
  split; [by vm_compute |]. split; [| split; by vm_compute].
  intros [H | [H | H]]; vm_compute in H; discriminate.
Qed.

(** C2, as amended: on both servers, a registration payload in which one
    of the seven mandatory fields counts as no value (it is absent, null,
    false, zero or the empty text) is answered with status 400 and the
    message "Missing required fields: " followed by the names of exactly
    the mandatory fields that count as no value, in the order of the
    form and separated by ", "; the store is left as it was.  The absent
    and the empty fields are among those named. *)
Theorem register_missing_fields
    (fe : FileServer.env) (me : MongoServer.env) (b : object)
    (fs : FileServer.state) (ms : MongoServer.state) :
  (exists field, In field mandatory /\ falsy (get b field)) ->
  exists named,
    FileServer.register fe b fs
    = (fs, FileServer.status_json 400
             (FileServer.Envelope false
                ("Missing required fields: " +:+ comma_list named) None None))
    /\ MongoServer.register me b ms
       = (ms, MongoServer.status_json 400
                (MongoServer.Envelope false
                   ("Missing required fields: " +:+ comma_list named) None None))
    /\ named `sublist_of` mandatory
    /\ (forall field, In field named
                      <-> In field mandatory /\ falsy (get b field))
    /\ (forall field, In field mandatory ->
                      absent_or_empty (get b field) -> In field named).
Proof.
  intros [field [Hreq Hfield]].
  assert (Hnamed : forall f, In f (FileServer.missing b)
                             <-> In f mandatory /\ falsy (get b f)).
  { intros f. by rewrite file_missing_In, truthy_falsy, mandatory_required. }
  assert (Hin : In field (FileServer.missing b)) by (by apply Hnamed).
  exists (FileServer.missing b).
  split; [| split; [| split; [| split]]].
  - unfold FileServer.register.
    by rewrite (nonempty_length field), join_comma_list.
  - unfold MongoServer.register. rewrite mongo_missing_file.
    by rewrite (nonempty_length field), join_comma_list.
  - apply filter_sublist.
  - exact Hnamed.
  - intros f Hf Hempty. apply Hnamed. split; [done |].
    by apply falsy_absent_or_empty.
Qed.

(** The theorem at a payload without first name and with an empty phone:
    the message names these two fields. *)
Lemma register_missing_fields_witness :
  (exists field, In field mandatory /\ falsy (get incomplete_payload field))
  /\ exists named,
       FileServer.register file_env incomplete_payload two_registrations
       = (two_registrations,
          FileServer.status_json 400
            (FileServer.Envelope false
               ("Missing required fields: " +:+ comma_list named) None None))
       /\ forall field, In field named <-> field = "firstName" \/ field = "phone".
Proof.
  assert (H : exists field, In field mandatory
                            /\ falsy (get incomplete_payload field)).
  { exists "firstName". split; [by left | by left]. }
  split; [exact H |].
  destruct (register_missing_fields file_env mongo_env incomplete_payload
              two_registrations empty_db H)
    as [named [Hfile [_ [_ [Hnamed _]]]]].
  exists named. split; [exact Hfile |].
  intros field. rewrite Hnamed. unfold mandatory. simpl. split.
  - intros [[<- | [<- | [<- | [<- | [<- | [<- | [<- | []]]]]]]] Ht];
      apply truthy_falsy in Ht; vm_compute in Ht; try discriminate; auto.
  - intros [-> | ->]; (split; [auto 10 | apply truthy_falsy; by vm_compute]).
Defined.

(** C10: on the file-backed server, a registration answered with status
    200 appends exactly one record to the registrations array and leaves
    the feedbacks array and [feedbacks.json] as they were; a feedback
    answered with status 200 appends exactly one record to the feedbacks
    array and leaves the registrations array and [registrations.json] as
    they were. *)
Theorem submissions_frame (e : FileServer.env) (b : object) (s : FileServer.state) :
  (FileServer.status (FileServer.register e b s).2 = 200 ->
   (exists reg, FileServer.registrations (FileServer.register e b s).1
                = FileServer.registrations s ++ [reg])
   /\ FileServer.feedbacks (FileServer.register e b s).1 = FileServer.feedbacks s
   /\ FileServer.feedbacks_json (FileServer.register e b s).1
      = FileServer.feedbacks_json s)
  /\ (FileServer.status (FileServer.submit_feedback e b s).2 = 200 ->
      (exists fb, FileServer.feedbacks (FileServer.submit_feedback e b s).1
                  = FileServer.feedbacks s ++ [fb])
      /\ FileServer.registrations (FileServer.submit_feedback e b s).1
         = FileServer.registrations s
      /\ FileServer.registrations_json (FileServer.submit_feedback e b s).1
         = FileServer.registrations_json s).
Proof.
  split.
  - unfold FileServer.register.
    destruct (0 <? _); [done |].
    destruct (_ && _); [done |].
    destruct (List.find _ _); [done |]. intros _.
    unfold FileServer.saveToFile_registrations.
    destruct (FileServer.write_ok e); simpl; eauto.
  - unfold FileServer.submit_feedback.
    destruct (_ && _); [done |].
    destruct (_ && _); [done |].
    destruct (FileServer.trim_or_empty _); [| done].
    destruct (FileServer.trim_or_empty _); [| done]. intros _.
    unfold FileServer.saveToFile_feedbacks.
    destruct (FileServer.write_ok e); simpl; eauto.
Qed.

(** The theorem at an accepted registration and an accepted feedback. *)
Lemma submissions_frame_witness :
  (FileServer.status (FileServer.register file_env ada_payload empty_store).2 = 200
   /\ FileServer.feedbacks (FileServer.register file_env ada_payload empty_store).1
      = FileServer.feedbacks empty_store)
  /\ (FileServer.status
        (FileServer.submit_feedback file_env great_event two_registrations).2 = 200
      /\ FileServer.registrations
           (FileServer.submit_feedback file_env great_event two_registrations).1
         = FileServer.registrations two_registrations).
Proof.
  assert (H1 : FileServer.status
                 (FileServer.register file_env ada_payload empty_store).2 = 200)
    by (vm_compute; reflexivity).
  assert (H2 : FileServer.status
                 (FileServer.submit_feedback file_env great_event
                    two_registrations).2 = 200)
    by (vm_compute; reflexivity).
  split.
  - split; [exact H1 |].
    exact (proj1 (proj2 (proj1 (submissions_frame file_env ada_payload empty_store) H1))).
  - split; [exact H2 |].
    exact (proj1 (proj2 (proj2 (submissions_frame file_env great_event
                                  two_registrations) H2))).
Defined.







(** C5 at a payload it does not survive: a feedback that is blank after
    trimming is accepted by the file-backed server, which answers 200
    and stores a record whose two feedback fields are empty. *)
Theorem submit_feedback_blank_accepted :
  FileServer.submit_feedback file_env blank_feedback empty_store
  = ({| FileServer.registrations := [];
        FileServer.feedbacks :=
          [{| FileServer.fb_id := 3000;
              FileServer.feedback1 := "";
              FileServer.feedback2 := "";
              FileServer.rating := None;
              FileServer.fb_timestamp := 3000 |}];
        FileServer.registrations_json := [];
        FileServer.feedbacks_json :=
          [{| FileServer.fb_id := 3000;
              FileServer.feedback1 := "";
              FileServer.feedback2 := "";
              FileServer.rating := None;
              FileServer.fb_timestamp := 3000 |}] |},
     FileServer.json
       (FileServer.Envelope true "Feedback submitted successfully" None None)).
Proof. by vm_compute. Qed.

(** C6, as stated, fails on the database-backed server: two feedbacks
    that differ in [feedback2] are listed as the same view, whose text is
    [feedback1] alone, so the second field cannot be read back. *)
Lemma mongo_view_drops_feedback2 :
  cold_room <> warm_room
  /\ MongoServer.list_feedbacks mongo_env (db_with cold_room)
     = MongoServer.list_feedbacks mongo_env (db_with warm_room)
  /\ MongoServer.list_feedbacks mongo_env (db_with cold_room)
     = MongoServer.json
         (MongoServer.FeedbackList
            [{| MongoServer.name := "Customer Feedback";
                MongoServer.text := "Great talks";
                MongoServer.view_rating := Some 4;
                MongoServer.view_timestamp := 1000;
                MongoServer.view_id := 1%N |}]).
Proof. split; [by intros [=] | by vm_compute]. Qed.

(** C6, as amended: on the file-backed server the list of feedbacks
    holds one view per stored feedback, newest first; each view has the
    name "Anonymous User", both feedback fields as stored, and as text
    the fields that are not blank joined by " | ".  On the
    database-backed server the list holds the views of stored feedbacks,
    newest first and at most 100 of them: all of them while the database
    answers and the collection holds at most 100; each view has the name
    "Customer Feedback" and as text the first non-empty of the two
    fields, or "No feedback text". *)
Theorem list_feedbacks_views (s : FileServer.state) (e : MongoServer.env)
    (ms : MongoServer.state) :
  (exists stored,
     Permutation stored (FileServer.feedbacks s)
     /\ newest_first FileServer.fb_timestamp stored
     /\ FileServer.list_feedbacks s
        = FileServer.json (FileServer.FeedbackList (map FileServer.view stored))
     /\ forall f,
          FileServer.name (FileServer.view f) = "Anonymous User"
          /\ FileServer.view_feedback1 (FileServer.view f) = FileServer.feedback1 f
          /\ FileServer.view_feedback2 (FileServer.view f) = FileServer.feedback2 f
          /\ FileServer.text (FileServer.view f)
             = joined_text (FileServer.feedback1 f) (FileServer.feedback2 f))
  /\ (exists docs,
        MongoServer.body (MongoServer.list_feedbacks e ms)
        = MongoServer.FeedbackList (map MongoServer.view docs)
        /\ (forall d, In d docs -> In d (MongoServer.Feedback ms))
        /\ newest_first MongoServer.fb_timestamp docs
        /\ (length docs <= 100)%nat
        /\ (MongoServer.connected e = true ->
            (length (MongoServer.Feedback ms) <= 100)%nat ->
            MongoServer.status (MongoServer.list_feedbacks e ms) = 200
            /\ Permutation docs (MongoServer.Feedback ms))
        /\ forall d,
             MongoServer.name (MongoServer.view d) = "Customer Feedback"
             /\ MongoServer.view_rating (MongoServer.view d) = MongoServer.rating d
             /\ MongoServer.text (MongoServer.view d)
                = match MongoServer.feedback1 d, MongoServer.feedback2 d with
                  | Some (String a t), _ => String a t
                  | _, Some (String a t) => String a t
                  | _, _ => "No feedback text"
                  end).
Proof.
  assert (Hview : forall d,
             MongoServer.name (MongoServer.view d) = "Customer Feedback"
             /\ MongoServer.view_rating (MongoServer.view d) = MongoServer.rating d
             /\ MongoServer.text (MongoServer.view d)
                = match MongoServer.feedback1 d, MongoServer.feedback2 d with
                  | Some (String a t), _ => String a t
                  | _, Some (String a t) => String a t
                  | _, _ => "No feedback text"
                  end).
  { intros d. split; [done |]. split; [done |].
    simpl. unfold MongoServer.first_text.
    by destruct (MongoServer.feedback1 d) as [[|] |],
                (MongoServer.feedback2 d) as [[|] |]. }
  split.
  - exists (sort_newest FileServer.fb_timestamp (FileServer.feedbacks s)).
    split; [apply sort_newest_perm |].
    split; [apply sort_newest_sorted |].
    split; [done |].
    intros f. repeat split. apply display_text_joined.
  - unfold MongoServer.list_feedbacks.
    destruct (MongoServer.connected e).
    + eexists. split; [done |].
      split; [intros d Hd; by apply In_take, sort_newest_In in Hd |].
      split; [apply newest_first_take, sort_newest_sorted |].
      split; [rewrite length_take; lia |].
      split; [| exact Hview].
      intros _ Hlen. split; [done |].
      rewrite take_ge by (by rewrite sort_newest_length).
      apply sort_newest_perm.
    + exists []. split; [done |].
      split; [intros d [] |]. split; [constructor |]. split; [simpl; lia |].
      split; [done | exact Hview].
Qed.

(** The theorem at a collection of one feedback, while the database
    answers. *)
Lemma list_feedbacks_views_witness :
  (MongoServer.connected mongo_env = true
   /\ (length (MongoServer.Feedback (db_with cold_room)) <= 100)%nat)
  /\ exists docs,
       MongoServer.body (MongoServer.list_feedbacks mongo_env (db_with cold_room))
       = MongoServer.FeedbackList (map MongoServer.view docs)
       /\ Permutation docs (MongoServer.Feedback (db_with cold_room)).
Proof.
  assert (H1 : MongoServer.connected mongo_env = true) by reflexivity.
  assert (H2 : (length (MongoServer.Feedback (db_with cold_room)) <= 100)%nat)
    by (simpl; lia).
  split; [auto |].
  destruct (proj2 (list_feedbacks_views empty_store mongo_env (db_with cold_room)))
    as (docs & Hb & _ & _ & _ & Hall & _).
  exists docs. split; [exact Hb |]. exact (proj2 (Hall H1 H2)).
Defined.

(** C7 at a request it does not survive: when the database cannot be
    reached, the two admin list handlers of the database-backed server
    do answer an empty array, as their comment announces ("Return empty
    array instead of error"), but they answer it with the error status
    500. *)
Theorem offline_lists_empty
    (RegExp_i : string -> option (string -> bool))
    (e : MongoServer.env) (query : object) (s : MongoServer.state) :
  MongoServer.connected e = false ->
  MongoServer.list_registrations RegExp_i e query s
  = MongoServer.status_json 500 (MongoServer.RegistrationList [])
  /\ MongoServer.list_feedbacks e s
     = MongoServer.status_json 500 (MongoServer.FeedbackList []).
Proof.
  intros He. unfold MongoServer.list_registrations, MongoServer.list_feedbacks.
  rewrite He. split; [| done].
  destruct (truthy _); [| done]. by destruct (RegExp_i _).
Qed.

(** The theorem at a request served while the database is down. *)
Lemma offline_lists_empty_witness :
  MongoServer.connected offline_env = false
  /\ MongoServer.list_registrations no_regexp offline_env ∅ (db_with cold_room)
     = MongoServer.status_json 500 (MongoServer.RegistrationList [])
  /\ MongoServer.list_feedbacks offline_env (db_with cold_room)
     = MongoServer.status_json 500 (MongoServer.FeedbackList []).
Proof.
  split; [reflexivity |].
  exact (offline_lists_empty no_regexp offline_env ∅ (db_with cold_room) eq_refl).
Defined.

(** C8 at a payload it does not survive: the file-backed server accepts
    a registration whose consent is the string "true" and stores that
    string, not a boolean. *)
Theorem register_consent_text_stored :
  exists s r,
    FileServer.register file_env consent_as_text empty_store
    = (s, FileServer.json
            (FileServer.Envelope true "Registration successful" (Some 3000) None))
    /\ FileServer.registrations s = [r]
    /\ FileServer.consent r = VStr "true"
    /\ FileServer.consent r <> VBool true.
Proof. eexists _, _. split; [by vm_compute |]. by vm_compute. Qed.

(** C9, as stated, fails on the admin router: the right credentials are
    answered 200 with no token. *)
Lemma router_login_no_token :
  Routes.login admin_credentials
  = {| Routes.status := 200;
       Routes.body := {| Routes.success := true;
                         Routes.message := "Login successful";
                         Routes.token := None |} |}.
Proof. by vm_compute. Qed.

(** C9, as amended: the three login handlers answer 200 exactly when the
    submitted username and password are the one fixed pair, and 401 with
    no token otherwise; on success the two servers return the token
    "demo-token" and the admin router returns no token. *)
Theorem login_fixed_pair (b : object) :
  (fixed_pair b ->
   FileServer.login b
   = FileServer.json
       (FileServer.Envelope true "Login successful" None (Some "demo-token"))
   /\ MongoServer.login b
      = MongoServer.json
          (MongoServer.Envelope true "Login successful" None (Some "demo-token"))
   /\ Routes.login b
      = {| Routes.status := 200;
           Routes.body := {| Routes.success := true;
                             Routes.message := "Login successful";
                             Routes.token := None |} |})
  /\ (~ fixed_pair b ->
      FileServer.login b
      = FileServer.status_json 401
          (FileServer.Envelope false "Invalid credentials" None None)
      /\ MongoServer.login b
         = MongoServer.status_json 401
             (MongoServer.Envelope false "Invalid credentials" None None)
      /\ Routes.login b
         = {| Routes.status := 401;
              Routes.body := {| Routes.success := false;
                                Routes.message := "Invalid credentials";
                                Routes.token := None |} |}).
Proof.
  unfold FileServer.login, MongoServer.login, Routes.login. split.
  - intros H. apply credentials_check in H. by rewrite H.
  - intros H. rewrite <- credentials_check in H.
    apply not_true_is_false in H. by rewrite H.
Qed.

(** The theorem at the right credentials and at a wrong password. *)
Lemma login_fixed_pair_witness :
  (fixed_pair admin_credentials
   /\ FileServer.login admin_credentials
      = FileServer.json
          (FileServer.Envelope true "Login successful" None (Some "demo-token")))
  /\ (~ fixed_pair wrong_password
      /\ FileServer.login wrong_password
         = FileServer.status_json 401
             (FileServer.Envelope false "Invalid credentials" None None)).
Proof.
  assert (Hok : fixed_pair admin_credentials) by (split; vm_compute; reflexivity).
  assert (Hno : ~ fixed_pair wrong_password).
  { intros [_ H]. vm_compute in H. discriminate. }
  split.
  - split; [exact Hok |].
    exact (proj1 (proj1 (login_fixed_pair admin_credentials) Hok)).
  - split; [exact Hno |].
    exact (proj1 (proj2 (login_fixed_pair wrong_password) Hno)).
Defined.

(* ===================================================================== *)
(** * Further properties of the code *)
(* ===================================================================== *)

(** ** White space and case *)

Lemma trimStart_fixed (s : string) :
  match s with
  | String a _ => is_ws a = false
  | EmptyString => True
  end ->
  trimStart s = s.
Proof. destruct s as [|a s]; [done |]. simpl. by intros ->. Qed.

Lemma trimStart_head (s : string) :
  match trimStart s with
  | String a _ => is_ws a = false
  | EmptyString => True
  end.
Proof.
  induction s as [|a s IH]; [done |]. simpl.
  destruct (is_ws a) eqn:Ha; [exact IH | exact Ha].
Qed.

Lemma trimEnd_head (s : string) :
  match s with
  | String a _ => is_ws a = false
  | EmptyString => True
  end ->
  match trimEnd s with
  | String a _ => is_ws a = false
  | EmptyString => True
  end.
Proof.
  destruct s as [|a s]; [done |]. simpl. intros Ha.
  destruct (trimEnd s); [by rewrite Ha | done].
Qed.

Lemma trimEnd_idempotent (s : string) : trimEnd (trimEnd s) = trimEnd s.
Proof.
  induction s as [|a s IH]; [done |]. simpl.
  destruct (trimEnd s) as [|b t] eqn:E.
  - destruct (is_ws a) eqn:Ha; [done |]. simpl. by rewrite Ha.
  - cbn [trimEnd]. cbn [trimEnd] in IH. rewrite IH. done.
Qed.

Lemma trim_idempotent (s : string) : trim (trim s) = trim s.
Proof.
  unfold trim.
  rewrite (trimStart_fixed (trimEnd (trimStart s))).
  - apply trimEnd_idempotent.
  - apply trimEnd_head, trimStart_head.
Qed.

(** ** The file-backed server, one request at a time *)

(** The two ways a registration ends: turned away with status 400 and the
    store untouched, or stored. *)
Lemma file_register_cases (e : FileServer.env) (b : object) (s : FileServer.state) :
  (exists msg,
     FileServer.register e b s
     = (s, FileServer.status_json 400 (FileServer.Envelope false msg None None)))
  \/ (FileServer.missing b = []
      /\ truthy (get b "interests") && gt (length_of (get b "interests")) 2 = false
      /\ List.find (fun reg => strict_eq (FileServer.email reg) (get b "email"))
           (FileServer.registrations s) = None
      /\ FileServer.register e b s
         = (FileServer.saveToFile_registrations e
              (FileServer.push_registration (new_registration e b) s),
            FileServer.json
              (FileServer.Envelope true "Registration successful"
                 (Some (FileServer.date_now e)) None))).
Proof.
  unfold FileServer.register.
  destruct (0 <? _) eqn:Hm; [left; eauto |].
  destruct (_ && _) eqn:Hi; [left; eauto |].
  destruct (List.find _ _) eqn:Hf; [left; eauto |].
  right. by apply empty_length in Hm.
Qed.

(** The same for a feedback: turned away with 400 or 500, or stored with
    both fields trimmed. *)
Lemma file_feedback_cases (e : FileServer.env) (b : object) (s : FileServer.state) :
  (exists code msg,
     (code = 400 \/ code = 500)
     /\ FileServer.submit_feedback e b s
        = (s, FileServer.status_json code (FileServer.Envelope false msg None None)))
  \/ (exists t1 t2,
        FileServer.trim_or_empty (get b "feedback1") = Some t1
        /\ FileServer.trim_or_empty (get b "feedback2") = Some t2
        /\ FileServer.submit_feedback e b s
           = (FileServer.saveToFile_feedbacks e
                (FileServer.push_feedback
                   {| FileServer.fb_id := FileServer.date_now e;
                      FileServer.feedback1 := t1;
                      FileServer.feedback2 := t2;
                      FileServer.rating :=
                        if truthy (get b "rating")
                        then Some (parseInt (get b "rating")) else None;
                      FileServer.fb_timestamp := FileServer.new_date e |} s),
              FileServer.json
                (FileServer.Envelope true "Feedback submitted successfully"
                   None None))).
Proof.
  unfold FileServer.submit_feedback.
  destruct (_ && _); [left; eauto 10 |].
  destruct (_ && _); [left; eauto 10 |].
  destruct (FileServer.trim_or_empty (get b "feedback1")) as [t1 |];
    [| left; eauto 10].
  destruct (FileServer.trim_or_empty (get b "feedback2")) as [t2 |];
    [| left; eauto 10].
  right. eauto 10.
Qed.

(** A property kept by every request is kept by a run of requests. *)
Lemma file_run_keeps (Q : FileServer.request -> Prop) (P : FileServer.state -> Prop) :
  (forall r s, Q r -> P s -> P (FileServer.handle r s).1) ->
  forall rs s, Forall Q rs -> P s -> P (FileServer.run rs s).1.
Proof.
  intros Hstep rs. induction rs as [|r rs IH]; intros s HQ HP; [done |].
  inversion HQ as [|? ? Hr Hrs]; subst. simpl.
  specialize (Hstep r s Hr HP).
  destruct (FileServer.handle r s) as [s1 a].
  specialize (IH s1 Hrs Hstep).
  by destruct (FileServer.run rs s1) as [s2 answers].
Qed.

Lemma saved_registrations (e : FileServer.env) (s : FileServer.state) :
  FileServer.registrations (FileServer.saveToFile_registrations e s)
  = FileServer.registrations s
  /\ FileServer.feedbacks (FileServer.saveToFile_registrations e s)
     = FileServer.feedbacks s
  /\ FileServer.feedbacks_json (FileServer.saveToFile_registrations e s)
     = FileServer.feedbacks_json s
  /\ FileServer.registrations_json (FileServer.saveToFile_registrations e s)
     = FileServer.written e (FileServer.registrations_json s)
         (FileServer.registrations s).
Proof. done. Qed.

Lemma saved_feedbacks (e : FileServer.env) (s : FileServer.state) :
  FileServer.registrations (FileServer.saveToFile_feedbacks e s)
  = FileServer.registrations s
  /\ FileServer.feedbacks (FileServer.saveToFile_feedbacks e s)
     = FileServer.feedbacks s
  /\ FileServer.registrations_json (FileServer.saveToFile_feedbacks e s)
     = FileServer.registrations_json s
  /\ FileServer.feedbacks_json (FileServer.saveToFile_feedbacks e s)
     = FileServer.written e (FileServer.feedbacks_json s) (FileServer.feedbacks s).
Proof. done. Qed.

(** Whatever a write leaves, it is a leading part of the array it was
    given when the file held a leading part of the array before. *)
Lemma written_prefix {A : Type} (e : FileServer.env) (old l : list A) (x : A) :
  old `prefix_of` l -> FileServer.written e old (l ++ [x]) `prefix_of` l ++ [x].
Proof.
  intros H. unfold FileServer.written.
  destruct (FileServer.write_ok e); [done |].
  destruct (FileServer.failed_write e);
    [by apply prefix_app_r | apply prefix_nil | done].
Qed.

Lemma written_cases {A : Type} (e : FileServer.env) (old new : list A) :
  FileServer.write_ok e = false ->
  FileServer.written e old new
  = match FileServer.failed_write e with
    | FileServer.Untouched => old
    | FileServer.Unreadable => []
    | FileServer.Complete => new
    end.
Proof. unfold FileServer.written. by intros ->. Qed.

(** X1: a payload with all mandatory fields and an array of more than two
    interests is answered 400 by both servers, and nothing is stored. *)
Theorem too_many_interests_rejected
    (fe : FileServer.env) (me : MongoServer.env) (b : object)
    (fs : FileServer.state) (ms : MongoServer.state) (l : list value) :
  (forall field, In field FileServer.required -> truthy (get b field) = true) ->
  get b "interests" = VArr l ->
  (2 < length l)%nat ->
  FileServer.register fe b fs
  = (fs, FileServer.status_json 400
           (FileServer.Envelope false "Maximum 2 areas of interest allowed" None None))
  /\ MongoServer.register me b ms
     = (ms, MongoServer.status_json 400
              (MongoServer.Envelope false "Maximum 2 interests allowed" None None)).
Proof.
  intros Hreq Hi Hl.
  assert (Hm : FileServer.missing b = []).
  { unfold FileServer.missing, FileServer.required. simpl.
    by rewrite !Hreq by (simpl; auto 10). }
  assert (Hgt : truthy (get b "interests") && gt (length_of (get b "interests")) 2
                = true).
  { rewrite Hi. simpl. rewrite gt_number. apply Z.ltb_lt. lia. }
  split.
  - unfold FileServer.register. by rewrite Hm, Hgt.
  - unfold MongoServer.register. rewrite mongo_missing_file. by rewrite Hm, Hgt.
Qed.

(** The theorem at Ada's payload with three interests. *)
Lemma too_many_interests_rejected_witness :
  ((forall field, In field FileServer.required ->
                  truthy (get three_interests field) = true)
   /\ get three_interests "interests"
      = VArr [VStr "5G"; VStr "Fintech"; VStr "Cloud"]
   /\ (2 < length [VStr "5G"; VStr "Fintech"; VStr "Cloud"])%nat)
  /\ FileServer.register file_env three_interests two_registrations
     = (two_registrations,
        FileServer.status_json 400
          (FileServer.Envelope false "Maximum 2 areas of interest allowed"
             None None)).
Proof.
  assert (H1 : forall field, In field FileServer.required ->
                             truthy (get three_interests field) = true).
  { intros field H. simpl in H.
    repeat (destruct H as [<- | H]; [by vm_compute |]). done. }
  assert (H2 : get three_interests "interests"
               = VArr [VStr "5G"; VStr "Fintech"; VStr "Cloud"])
    by (vm_compute; reflexivity).
  assert (H3 : (2 < length [VStr "5G"; VStr "Fintech"; VStr "Cloud"])%nat)
    by (simpl; lia).
  split; [auto |].
  exact (proj1 (too_many_interests_rejected file_env mongo_env three_interests
                  two_registrations empty_db _ H1 H2 H3)).
Defined.

Lemma same_number_sym (m1 k1 m2 k2 : Z) :
  same_number m1 k1 m2 k2 = same_number m2 k2 m1 k1.
Proof. unfold same_number. apply Z.eqb_sym. Qed.

Lemma strict_eq_sym (a b : value) : strict_eq a b = strict_eq b a.
Proof.
  destruct a, b; simpl; try done; try apply same_number_sym.
  - by destruct b, b0.
  - apply Z.eqb_sym.
  - apply String.eqb_sym.
Qed.

Lemma distinct_emails_snoc (l : list FileServer.registration)
    (x : FileServer.registration) :
  distinct_emails l ->
  (forall r, In r l -> strict_eq (FileServer.email r) (FileServer.email x) = false) ->
  distinct_emails (l ++ [x]).
Proof.
  induction l as [|r l IH]; simpl; intros Hd Hx.
  - split; [constructor | done].
  - destruct Hd as [Hr Hd]. split.
    + apply Forall_app. split; [done |].
      constructor; [| constructor].
      rewrite (strict_eq_sym (FileServer.email x)), Hx by (by left). done.
    + apply IH; [done |]. intros r' Hr'. apply Hx. by right.
Qed.

(** X2: the file-backed server keeps the emails of its registrations
    distinct under [===]: when no stored registration has the email of
    another one, the same holds after any sequence of registrations and
    feedbacks. *)
Theorem registrations_keep_distinct_emails
    (rs : list FileServer.request) (s : FileServer.state) :
  distinct_emails (FileServer.registrations s) ->
  distinct_emails (FileServer.registrations (FileServer.run rs s).1).
Proof.
  apply (file_run_keeps (fun _ => True)
           (fun s => distinct_emails (FileServer.registrations s)));
    [| by apply Forall_forall].
  clear rs s. intros [e b | e b] s _ Hd; simpl.
  - destruct (file_register_cases e b s) as [[msg ->] | (_ & _ & Hf & ->)];
      [done |].
    simpl. rewrite ?(proj1 (saved_registrations e _)). simpl.
    apply distinct_emails_snoc; [done |].
    intros r Hr. exact (find_none _ _ Hf r Hr).
  - destruct (file_feedback_cases e b s)
      as [(code & msg & _ & ->) | (t1 & t2 & _ & _ & ->)]; [done |].
    simpl. by rewrite ?(proj1 (saved_feedbacks e _)).
Qed.

(** The theorem on a run that submits Ada's payload twice. *)
Lemma registrations_keep_distinct_emails_witness :
  distinct_emails (FileServer.registrations empty_store)
  /\ distinct_emails
       (FileServer.registrations (FileServer.run busy_morning empty_store).1)
  /\ length (FileServer.registrations (FileServer.run busy_morning empty_store).1)
     = 2%nat.
Proof.
  assert (H : distinct_emails (FileServer.registrations empty_store)) by exact I.
  split; [exact H |].
  split; [exact (registrations_keep_distinct_emails busy_morning empty_store H) |].
  by vm_compute.
Defined.

(** X3: each file of the file-backed server holds a leading part of its
    in-memory array, whatever the outcome of the writes: a record is
    never on disk without being in memory, and the order is the same. *)
Theorem files_stay_behind (rs : list FileServer.request) (s : FileServer.state) :
  files_behind s -> files_behind (FileServer.run rs s).1.
Proof.
  apply (file_run_keeps (fun _ => True) files_behind); [| by apply Forall_forall].
  clear rs s. unfold files_behind. intros [e b | e b] s _ [Hr Hf]; simpl.
  - destruct (file_register_cases e b s) as [[msg ->] | (_ & _ & _ & ->)];
      [done |].
    simpl. split; [| done]. by apply written_prefix.
  - destruct (file_feedback_cases e b s)
      as [(code & msg & _ & ->) | (t1 & t2 & _ & _ & ->)]; [done |].
    simpl. split; [done |]. by apply written_prefix.
Qed.

(** The theorem on a run whose last requests find the disk failing. *)
Lemma files_stay_behind_witness :
  files_behind empty_store
  /\ files_behind
       (FileServer.run
          (busy_morning ++ [FileServer.PostRegister failing_disk ada_again])
          empty_store).1.
Proof.
  assert (H : files_behind empty_store) by (split; reflexivity).
  split; [exact H |].
  exact (files_stay_behind _ empty_store H).
Defined.

(** X4: the file-backed server does not report a failed write.  Whether
    [fs.writeFile] succeeds or not, a registration and a feedback get
    the same answer and leave the same arrays in memory.  After a failed
    write the file reads as what it held before, as the empty array, or
    as the new array; when the failure leaves it unreadable, a
    submission answered 200 leaves a file that reads as empty. *)
Theorem write_failure_unreported (now_id now : Z) (left : FileServer.leftover)
    (b : object) (s : FileServer.state) :
  let ok := {| FileServer.date_now := now_id; FileServer.new_date := now;
               FileServer.write_ok := true; FileServer.failed_write := left |} in
  let ko := {| FileServer.date_now := now_id; FileServer.new_date := now;
               FileServer.write_ok := false; FileServer.failed_write := left |} in
  ((FileServer.register ko b s).2 = (FileServer.register ok b s).2
   /\ FileServer.registrations (FileServer.register ko b s).1
      = FileServer.registrations (FileServer.register ok b s).1
   /\ FileServer.feedbacks (FileServer.register ko b s).1
      = FileServer.feedbacks (FileServer.register ok b s).1
   /\ (FileServer.registrations_json (FileServer.register ko b s).1
       = FileServer.registrations_json s
       \/ FileServer.registrations_json (FileServer.register ko b s).1 = []
       \/ FileServer.registrations_json (FileServer.register ko b s).1
          = FileServer.registrations (FileServer.register ko b s).1)
   /\ (left = FileServer.Unreadable ->
       FileServer.status (FileServer.register ko b s).2 = 200 ->
       FileServer.registrations_json (FileServer.register ko b s).1 = []))
  /\ ((FileServer.submit_feedback ko b s).2 = (FileServer.submit_feedback ok b s).2
      /\ FileServer.feedbacks (FileServer.submit_feedback ko b s).1
         = FileServer.feedbacks (FileServer.submit_feedback ok b s).1
      /\ FileServer.registrations (FileServer.submit_feedback ko b s).1
         = FileServer.registrations (FileServer.submit_feedback ok b s).1
      /\ (FileServer.feedbacks_json (FileServer.submit_feedback ko b s).1
          = FileServer.feedbacks_json s
          \/ FileServer.feedbacks_json (FileServer.submit_feedback ko b s).1 = []
          \/ FileServer.feedbacks_json (FileServer.submit_feedback ko b s).1
             = FileServer.feedbacks (FileServer.submit_feedback ko b s).1)
      /\ (left = FileServer.Unreadable ->
          FileServer.status (FileServer.submit_feedback ko b s).2 = 200 ->
          FileServer.feedbacks_json (FileServer.submit_feedback ko b s).1 = [])).
Proof.
  intros ok ko.
  assert (Hleft : forall (A : Type) (old new : list A),
             FileServer.written ko old new = old
             \/ FileServer.written ko old new = []
             \/ FileServer.written ko old new = new).
  { intros A old new. unfold FileServer.written. simpl. destruct left; auto. }
  assert (Hlost : forall (A : Type) (old new : list A),
             left = FileServer.Unreadable -> FileServer.written ko old new = []).
  { intros A old new. unfold FileServer.written. simpl. by intros ->. }
  split.
  - unfold FileServer.register.
    destruct (0 <? _);
      [simpl; repeat split; auto; intros; discriminate |].
    destruct (_ && _);
      [simpl; repeat split; auto; intros; discriminate |].
    destruct (List.find _ _);
      [simpl; repeat split; auto; intros; discriminate |].
    simpl. repeat split; auto.
  - unfold FileServer.submit_feedback.
    destruct (_ && _);
      [simpl; repeat split; auto; intros; discriminate |].
    destruct (_ && _);
      [simpl; repeat split; auto; intros; discriminate |].
    destruct (FileServer.trim_or_empty _);
      [| simpl; repeat split; auto; intros; discriminate].
    destruct (FileServer.trim_or_empty _);
      [| simpl; repeat split; auto; intros; discriminate].
    simpl. repeat split; auto.
Qed.

(** The theorem at a registration sent to a store of two while the
    disk fails half-way: the answer is 200 and the file reads as empty. *)
Lemma write_failure_unreported_witness :
  FileServer.status (FileServer.register failing_disk ada_again two_registrations).2
  = 200
  /\ FileServer.registrations_json
       (FileServer.register failing_disk ada_again two_registrations).1 = []
  /\ length (FileServer.registrations
               (FileServer.register failing_disk ada_again two_registrations).1)
     = 3%nat.
Proof.
  assert (H : FileServer.status
                (FileServer.register failing_disk ada_again two_registrations).2
              = 200) by (vm_compute; reflexivity).
  split; [exact H |]. split; [| by vm_compute].
  exact (proj2 (proj2 (proj2 (proj2 (proj1
           (write_failure_unreported 5000 5000 FileServer.Unreadable ada_again
              two_registrations))))) eq_refl H).
Defined.

Lemma sort_newest_snoc {A : Type} (key : A -> Z) (l : list A) (x : A) :
  (forall y, In y l -> key y < key x) ->
  sort_newest key (l ++ [x]) = x :: sort_newest key l.
Proof.
  induction l as [|y l IH]; intros Hl; [done |].
  simpl. rewrite IH by (intros z Hz; apply Hl; by right).
  simpl. assert (key y < key x) as Hy by (apply Hl; by left).
  apply Z.ltb_lt in Hy. by rewrite Hy.
Qed.

(** X5: on the file-backed server, a registration accepted at an instant
    later than every stored timestamp comes first in the admin list,
    followed by the list as it was before. *)
Theorem new_registration_listed_first (e : FileServer.env) (b : object)
    (s : FileServer.state) :
  FileServer.status (FileServer.register e b s).2 = 200 ->
  (forall r, In r (FileServer.registrations s) ->
             FileServer.reg_timestamp r < FileServer.new_date e) ->
  exists r before,
    FileServer.list_registrations ∅ s
    = FileServer.json (FileServer.RegistrationList before)
    /\ FileServer.list_registrations ∅ (FileServer.register e b s).1
       = FileServer.json (FileServer.RegistrationList (r :: before))
    /\ FileServer.reg_id r = FileServer.date_now e
    /\ FileServer.reg_timestamp r = FileServer.new_date e
    /\ FileServer.email r = get b "email".
Proof.
  intros Hok Hnew.
  destruct (file_register_cases e b s) as [[msg H] | (_ & _ & _ & H)];
    rewrite H in *; [done |].
  exists (new_registration e b),
         (sort_newest FileServer.reg_timestamp (FileServer.registrations s)).
  split; [done |]. split; [| done].
  unfold FileServer.list_registrations, get. rewrite lookup_empty. simpl.
  rewrite ?(proj1 (saved_registrations e _)). simpl.
  by rewrite sort_newest_snoc.
Qed.

(** The theorem at Ada's payload, sent at instant 3000 to a store whose
    records date from 1000 and 2000. *)
Lemma new_registration_listed_first_witness :
  (FileServer.status
     (FileServer.register file_env ada_again two_registrations).2 = 200
   /\ forall r, In r (FileServer.registrations two_registrations) ->
                FileServer.reg_timestamp r < FileServer.new_date file_env)
  /\ exists r,
       FileServer.list_registrations ∅
         (FileServer.register file_env ada_again two_registrations).1
       = FileServer.json (FileServer.RegistrationList [r; bob; ada])
       /\ FileServer.reg_id r = 3000.
Proof.
  assert (H1 : FileServer.status
                 (FileServer.register file_env ada_again two_registrations).2
               = 200) by (vm_compute; reflexivity).
  assert (H2 : forall r, In r (FileServer.registrations two_registrations) ->
                         FileServer.reg_timestamp r < FileServer.new_date file_env).
  { intros r [<- | [<- | []]]; simpl; lia. }
  split; [auto |].
  destruct (new_registration_listed_first file_env ada_again two_registrations
              H1 H2) as (r & before & Hb & Ha & Hid & _).
  exists r. split; [| exact Hid].
  rewrite Ha. f_equal. f_equal. f_equal.
  assert (Hb' : FileServer.list_registrations ∅ two_registrations
                = FileServer.json (FileServer.RegistrationList [bob; ada]))
    by (vm_compute; reflexivity).
  rewrite Hb' in Hb. by injection Hb as <-.
Defined.

(** X6: the counts of the stats endpoint of the file-backed server go up
    by one for each registration, respectively feedback, that a run of
    requests answered with 200, and by nothing else. *)
Theorem stats_count_accepted (rs : list FileServer.request) (s : FileServer.state) :
  FileServer.stats (FileServer.run rs s).1
  = FileServer.json
      (FileServer.StatsObj
         (Z.of_nat (length (FileServer.registrations s))
          + Z.of_nat (length (List.filter registered
                                (combine rs (FileServer.run rs s).2))))
         (Z.of_nat (length (FileServer.feedbacks s))
          + Z.of_nat (length (List.filter commented
                                (combine rs (FileServer.run rs s).2))))
         3).
Proof.
  revert s. induction rs as [|r rs IH]; intros s.
  - unfold FileServer.stats. simpl. by rewrite !Z.add_0_r.
  - simpl. destruct (FileServer.handle r s) as [s1 a] eqn:Hh.
    specialize (IH s1). destruct (FileServer.run rs s1) as [s2 answers].
    simpl in *. rewrite IH. unfold FileServer.stats. do 2 f_equal.
    + destruct r as [e b | e b]; simpl in Hh; unfold registered at 2; simpl.
      * destruct (file_register_cases e b s) as [[msg H] | (_ & _ & _ & H)];
          rewrite H in Hh; injection Hh as <- <-; simpl; [lia |].
        rewrite ?(proj1 (saved_registrations e _)). simpl.
        rewrite length_app. simpl. lia.
      * destruct (file_feedback_cases e b s)
          as [(code & msg & _ & H) | (t1 & t2 & _ & _ & H)];
          rewrite H in Hh; injection Hh as <- <-; simpl; [lia |].
        by rewrite ?(proj1 (saved_feedbacks e _)).
    + destruct r as [e b | e b]; simpl in Hh; unfold commented at 2; simpl.
      * destruct (file_register_cases e b s) as [[msg H] | (_ & _ & _ & H)];
          rewrite H in Hh; injection Hh as <- <-; simpl; [lia |].
        by rewrite ?(proj1 (proj2 (saved_registrations e _))).
      * destruct (file_feedback_cases e b s)
          as [(code & msg & [-> | ->] & H) | (t1 & t2 & _ & _ & H)];
          rewrite H in Hh; injection Hh as <- <-; simpl; [lia | lia |].
        rewrite ?(proj1 (proj2 (saved_feedbacks e _))). simpl.
        rewrite length_app. simpl. lia.
Qed.

Lemma trim_or_empty_trimmed (v : value) (t : string) :
  FileServer.trim_or_empty v = Some t -> trim t = t.
Proof.
  unfold FileServer.trim_or_empty. destruct (truthy v).
  - destruct v; try done. intros [= <-]. apply trim_idempotent.
  - by intros [= <-].
Qed.

(** X7: the file-backed server stores feedback text trimmed: when every
    stored feedback has both fields free of white space at either end,
    the same holds after any sequence of registrations and feedbacks. *)
Theorem feedbacks_stay_trimmed (rs : list FileServer.request) (s : FileServer.state) :
  Forall trimmed (FileServer.feedbacks s) ->
  Forall trimmed (FileServer.feedbacks (FileServer.run rs s).1).
Proof.
  apply (file_run_keeps (fun _ => True)
           (fun s => Forall trimmed (FileServer.feedbacks s)));
    [| by apply Forall_forall].
  clear rs s. intros [e b | e b] s _ Ht; simpl.
  - destruct (file_register_cases e b s) as [[msg ->] | (_ & _ & _ & ->)];
      [done |].
    simpl. by rewrite ?(proj1 (proj2 (saved_registrations e _))).
  - destruct (file_feedback_cases e b s)
      as [(code & msg & _ & ->) | (t1 & t2 & H1 & H2 & ->)]; [done |].
    simpl. rewrite ?(proj1 (proj2 (saved_feedbacks e _))). simpl.
    apply Forall_app. split; [done |].
    constructor; [| constructor]. split; simpl.
    + exact (trim_or_empty_trimmed _ _ H1).
    + exact (trim_or_empty_trimmed _ _ H2).
Qed.

(** The theorem on a run that sends padded text. *)
Lemma feedbacks_stay_trimmed_witness :
  Forall trimmed (FileServer.feedbacks empty_store)
  /\ Forall trimmed
       (FileServer.feedbacks
          (FileServer.run
             [FileServer.PostFeedback file_env
                {[ "feedback1" := VStr "  Great event  ";
                   "feedback2" := VStr " see you " ]}]
             empty_store).1).
Proof.
  assert (H : Forall trimmed (FileServer.feedbacks empty_store)) by constructor.
  split; [exact H |].
  exact (feedbacks_stay_trimmed _ empty_store H).
Defined.

(** X8: on the file-backed server a feedback field that is truthy and not
    a string makes the handler throw: nothing is stored and the answer
    is never 200; when the rating is absent the answer is 500. *)
Theorem non_text_feedback_fails (e : FileServer.env) (b : object)
    (s : FileServer.state) :
  truthy_non_text (get b "feedback1") \/ truthy_non_text (get b "feedback2") ->
  (FileServer.submit_feedback e b s).1 = s
  /\ FileServer.status (FileServer.submit_feedback e b s).2 <> 200
  /\ (truthy (get b "rating") = false ->
      (FileServer.submit_feedback e b s).2
      = FileServer.status_json 500
          (FileServer.Envelope false "Server error during feedback submission"
             None None)).
Proof.
  intros H.
  assert (Hsome : negb (truthy (get b "feedback1"))
                  && negb (truthy (get b "feedback2")) = false).
  { apply some_feedback. destruct H as [[H _] | [H _]]; auto. }
  assert (Hthrow : FileServer.trim_or_empty (get b "feedback1") = None
                   \/ FileServer.trim_or_empty (get b "feedback2") = None).
  { unfold FileServer.trim_or_empty.
    destruct H as [[Ht Hn] | [Ht Hn]]; [left | right]; rewrite Ht;
      match goal with |- match ?v with _ => _ end = _ => destruct v eqn:E end;
      try done; by destruct (Hn s0). }
  unfold FileServer.submit_feedback. rewrite Hsome.
  destruct (truthy (get b "rating")) eqn:Hr; simpl.
  - destruct (_ || _); [done |].
    destruct Hthrow as [-> | ->]; [done |].
    by destruct (FileServer.trim_or_empty _).
  - destruct Hthrow as [-> | ->]; [done |].
    by destruct (FileServer.trim_or_empty _).
Qed.

(** The theorem at a feedback whose first field is the number 5. *)
Lemma non_text_feedback_fails_witness :
  (truthy_non_text (get numeric_feedback "feedback1")
   \/ truthy_non_text (get numeric_feedback "feedback2"))
  /\ FileServer.submit_feedback file_env numeric_feedback empty_store
     = (empty_store,
        FileServer.status_json 500
          (FileServer.Envelope false "Server error during feedback submission"
             None None)).
Proof.
  assert (H : truthy_non_text (get numeric_feedback "feedback1")
              \/ truthy_non_text (get numeric_feedback "feedback2")).
  { left. split; [by vm_compute |]. intros t Ht. vm_compute in Ht. discriminate. }
  split; [exact H |].
  destruct (non_text_feedback_fails file_env numeric_feedback empty_store H)
    as (Hs & _ & Hr).
  rewrite (surjective_pairing
             (FileServer.submit_feedback file_env numeric_feedback empty_store)).
  rewrite Hs, Hr; [reflexivity | by vm_compute].
Defined.

Lemma filter_throwing_kept {A : Type} (p : A -> option bool) (l r : list A) :
  filter_throwing p l = Some r ->
  (length r <= length l)%nat
  /\ forall x, In x r -> In x l /\ p x = Some true.
Proof.
  revert r. induction l as [|a l IH]; simpl; intros r.
  - intros [= <-]. split; [done | intros x []].
  - destruct (p a) as [keep |] eqn:Ha; [| done].
    destruct (filter_throwing p l) as [r' |]; [| done].
    destruct (IH r' eq_refl) as [Hlen Hin].
    intros [= <-]. destruct keep.
    + split; [simpl; lia |].
      intros x [<- | Hx]; [by auto |]. destruct (Hin x Hx). auto.
    + split; [lia |]. intros x Hx. destruct (Hin x Hx). auto.
Qed.

(** X9: whatever the store holds and whatever the query is, the admin
    list of the file-backed server is either the answer 500 "Failed to
    fetch registrations" or a list, newest first, of stored registrations
    only; without a search (an absent or empty parameter) it is always
    the whole store. *)
Theorem list_registrations_safe (query : object) (s : FileServer.state) :
  (FileServer.list_registrations query s
   = FileServer.status_json 500 (FileServer.ErrorObj "Failed to fetch registrations")
   \/ exists l,
        FileServer.list_registrations query s
        = FileServer.json (FileServer.RegistrationList l)
        /\ newest_first FileServer.reg_timestamp l
        /\ (length l <= length (FileServer.registrations s))%nat
        /\ forall r, In r l -> In r (FileServer.registrations s))
  /\ (truthy (get query "search") = false ->
      exists l,
        FileServer.list_registrations query s
        = FileServer.json (FileServer.RegistrationList l)
        /\ Permutation l (FileServer.registrations s)).
Proof.
  unfold FileServer.list_registrations. split.
  - destruct (FileServer.search_term _) as [[t |] |]; [| | by left].
    + destruct (filter_throwing _ _) as [r |] eqn:Hf; [| by left].
      destruct (filter_throwing_kept _ _ _ Hf) as [Hlen Hin].
      right. eexists. split; [done |].
      split; [apply sort_newest_sorted |].
      split; [by rewrite sort_newest_length |].
      intros x Hx. apply sort_newest_In in Hx. by destruct (Hin x Hx).
    + right. eexists. split; [done |].
      split; [apply sort_newest_sorted |].
      split; [by rewrite sort_newest_length |].
      intros x Hx. by apply sort_newest_In in Hx.
  - intros Hq. unfold FileServer.search_term. rewrite Hq.
    eexists. split; [done | apply sort_newest_perm].
Qed.

(** The theorem at a request without query. *)
Lemma list_registrations_safe_witness :
  truthy (get (∅ : object) "search") = false
  /\ exists l,
       FileServer.list_registrations ∅ two_registrations
       = FileServer.json (FileServer.RegistrationList l)
       /\ Permutation l (FileServer.registrations two_registrations).
Proof.
  assert (H : truthy (get (∅ : object) "search") = false) by reflexivity.
  split; [exact H |].
  exact (proj2 (list_registrations_safe ∅ two_registrations) H).
Defined.

(** ** Start-up *)











(** A rating that [parseInt] reads as an infinity is accepted and is not
    restored: the file holds [null] for it. *)
Lemma infinite_rating_not_restored :
  FileServer.status
    (FileServer.submit_feedback file_env endless_rating empty_store).2 = 200
  /\ FileServer.rating <$>
       FileServer.feedbacks
         (FileServer.submit_feedback file_env endless_rating empty_store).1
     = [Some (IInf false)]
  /\ FileServer.rating <$>
       FileServer.feedbacks
         (FileServer.loadData
            (FileServer.submit_feedback file_env endless_rating empty_store).1)
     = [None].
Proof. by vm_compute. Qed.

(** ** The database-backed server *)

(** What the schema makes of the keys of a body beyond the form's: a
    timestamp that is no date fails the cast and the answer is 500; so
    does a second document under an identifier the collection holds. *)
Lemma register_own_timestamp_and_id :
  MongoServer.register mongo_env dated_yesterday empty_db
  = (empty_db,
     MongoServer.status_json 500
       (MongoServer.Failure "Server error during registration: "
          (MongoServer.ValidationError ["timestamp"])))
  /\ MongoServer.status (MongoServer.register one_id_env with_own_id empty_db).2
     = 200
  /\ (MongoServer.register one_id_env with_own_id
        (MongoServer.register one_id_env with_own_id empty_db).1).2
     = MongoServer.status_json 500
         (MongoServer.Failure "Server error during registration: "
            MongoServer.DuplicateKey).
Proof. by vm_compute. Qed.

Lemma lower_ascii_idempotent (a : ascii) : lower_ascii (lower_ascii a) = lower_ascii a.
Proof. destruct a as [[] [] [] [] [] [] [] []]; reflexivity. Qed.

Lemma is_ws_lower_ascii (a : ascii) : is_ws (lower_ascii a) = is_ws a.
Proof. destruct a as [[] [] [] [] [] [] [] []]; reflexivity. Qed.

Lemma toLowerCase_idempotent (s : string) : toLowerCase (toLowerCase s) = toLowerCase s.
Proof.
  induction s as [|a s IH]; [done |]. simpl.
  by rewrite lower_ascii_idempotent, IH.
Qed.

Lemma trimStart_toLowerCase (s : string) :
  trimStart (toLowerCase s) = toLowerCase (trimStart s).
Proof.
  induction s as [|a s IH]; [done |]. simpl.
  rewrite is_ws_lower_ascii. by destruct (is_ws a).
Qed.

Lemma trimEnd_toLowerCase (s : string) :
  trimEnd (toLowerCase s) = toLowerCase (trimEnd s).
Proof.
  induction s as [|a s IH]; [done |]. simpl.
  rewrite IH, is_ws_lower_ascii.
  destruct (trimEnd s); simpl; [by destruct (is_ws a) | done].
Qed.

Lemma trim_toLowerCase (s : string) : trim (toLowerCase s) = toLowerCase (trim s).
Proof. unfold trim. by rewrite trimStart_toLowerCase, trimEnd_toLowerCase. Qed.

(** What a required, trimmed [String] path leaves in the document. *)
Lemma required_path_value (lowers : bool) (v : value) (x : string) :
  MongoServer.string_path true true lowers v = Some (Some x) ->
  trim x = x /\ x <> "" /\ (lowers = true -> toLowerCase x = x).
Proof.
  unfold MongoServer.string_path.
  destruct (MongoServer.cast_string v) as [[s |] |]; try done.
  destruct lowers; simpl.
  - destruct (String.eqb_spec (toLowerCase (trim s)) "") as [| Hne]; [done |].
    intros [= <-]. split; [| split; [done |]].
    + by rewrite trim_toLowerCase, trim_idempotent.
    + intros _. apply toLowerCase_idempotent.
  - destruct (String.eqb_spec (trim s) "") as [| Hne]; [done |].
    intros [= <-]. split; [apply trim_idempotent | by split].
Qed.

Lemma cast_registration_normalized (e : MongoServer.env) (b : object)
    (mk : N -> MongoServer.registration_doc) (i : N) :
  MongoServer.cast_registration e b = inl mk -> normalized (mk i).
Proof.
  unfold MongoServer.cast_registration. intros H.
  destruct (MongoServer.string_path true true false (get b "firstName"))
    as [[fn |] |] eqn:Hfn; try discriminate.
  destruct (MongoServer.string_path true true false (get b "lastName"))
    as [[ln |] |] eqn:Hln; try discriminate.
  destruct (MongoServer.string_path true true true (get b "email"))
    as [[em |] |] eqn:Hem; try discriminate.
  repeat (case_match; try discriminate).
  injection H as <-. unfold normalized. simpl.
  destruct (required_path_value _ _ _ Hfn) as (? & ? & _).
  destruct (required_path_value _ _ _ Hln) as (? & ? & _).
  destruct (required_path_value _ _ _ Hem) as (? & ? & Hl).
  repeat split; auto.
Qed.

(** The query of the handler answers only while the database does. *)
Lemma findOne_email_connected (e : MongoServer.env) (v : value)
    (s : MongoServer.state) (found : option MongoServer.registration_doc) :
  MongoServer.findOne_email e v s = inl found -> MongoServer.connected e = true.
Proof. unfold MongoServer.findOne_email. by destruct (MongoServer.connected e). Qed.

(** The two ways a registration ends on the database-backed server. *)
Lemma mongo_register_cases (e : MongoServer.env) (b : object)
    (s : MongoServer.state) :
  MongoServer.Feedback (MongoServer.register e b s).1 = MongoServer.Feedback s
  /\ ((MongoServer.status (MongoServer.register e b s).2 <> 200
       /\ MongoServer.Registration (MongoServer.register e b s).1
          = MongoServer.Registration s)
      \/ exists mk,
           MongoServer.connected e = true
           /\ MongoServer.cast_registration e b = inl mk
           /\ MongoServer.Registration (MongoServer.register e b s).1
              = MongoServer.Registration s ++ [mk (MongoServer.new_id s)]
           /\ (MongoServer.register e b s).2
              = MongoServer.json
                  (MongoServer.Envelope true "Registration successful"
                     (Some (MongoServer._id (mk (MongoServer.new_id s)))) None)).
Proof.
  unfold MongoServer.register.
  destruct (0 <? _); [by split; [| left] |].
  destruct (_ && _); [by split; [| left] |].
  destruct (MongoServer.findOne_email e (get b "email") s)
    as [found | err] eqn:Hfind; [| by split; [| left]].
  apply findOne_email_connected in Hfind as He.
  set (s1 := match found with
             | Some _ => MongoServer.log _ s
             | None => s
             end).
  assert (Hs1 : MongoServer.Registration s1 = MongoServer.Registration s
                /\ MongoServer.Feedback s1 = MongoServer.Feedback s
                /\ MongoServer.new_id s1 = MongoServer.new_id s).
  { subst s1. by destruct found. }
  destruct Hs1 as (Hr1 & Hf1 & Hn1).
  unfold MongoServer.create_registration. rewrite He, Hr1, Hn1.
  destruct (MongoServer.cast_registration e b) as [mk | paths] eqn:Hmk;
    [| by split; [| left]].
  destruct (existsb _ _); [by split; [| left] |].
  simpl. rewrite Hr1, Hf1. split; [done |].
  right. by exists mk.
Qed.

(** The two ways a feedback ends on the database-backed server. *)
Lemma mongo_feedback_cases (e : MongoServer.env) (b : object)
    (s : MongoServer.state) :
  (MongoServer.status (MongoServer.submit_feedback e b s).2 <> 200
   /\ (MongoServer.submit_feedback e b s).1 = s)
  \/ exists d,
       MongoServer.connected e = true
       /\ rating_in_range d
       /\ (MongoServer.submit_feedback e b s).1 = MongoServer.insert_feedback d s
       /\ (MongoServer.submit_feedback e b s).2
          = MongoServer.json
              (MongoServer.Envelope true "Feedback submitted successfully"
                 None None).
Proof.
  unfold MongoServer.submit_feedback.
  destruct (_ && _); [by left |].
  destruct (_ && _); [by left |].
  unfold MongoServer.create_feedback.
  destruct (MongoServer.connected e); [| by left].
  destruct (MongoServer.string_path false false false (get b "feedback1"));
    [| by left].
  destruct (MongoServer.string_path false false false (get b "feedback2"));
    [| by left].
  destruct (MongoServer.rating_path _) as [rt |] eqn:Hrt; [| by left].
  right. eexists. split; [done |]. split; [| by split].
  unfold rating_in_range. simpl.
  unfold MongoServer.rating_path in Hrt.
  destruct (if truthy (get b "rating") then _ else _) as [[| z | n] |];
    try discriminate.
  - destruct (Z.leb_spec 1 z), (Z.leb_spec z 5); simpl in Hrt;
      try discriminate. injection Hrt as <-. lia.
  - by injection Hrt as <-.
Qed.

Lemma mongo_run_keeps (P : MongoServer.state -> Prop) :
  (forall r s, P s -> P (MongoServer.handle r s).1) ->
  forall rs s, P s -> P (MongoServer.run rs s).1.
Proof.
  intros Hstep rs. induction rs as [|r rs IH]; intros s HP; [done |].
  simpl. specialize (Hstep r s HP).
  destruct (MongoServer.handle r s) as [s1 a].
  specialize (IH s1 Hstep).
  by destruct (MongoServer.run rs s1) as [s2 answers].
Qed.

(** X11: a registration on the database-backed server is all or nothing.
    The feedback collection is never touched; either the answer is 200
    and exactly one document, carrying the returned identifier, is added
    to the registrations, or the answer is not 200 and the registrations
    are what they were. *)
Theorem mongo_register_all_or_nothing (e : MongoServer.env) (b : object)
    (s : MongoServer.state) :
  MongoServer.Feedback (MongoServer.register e b s).1 = MongoServer.Feedback s
  /\ ((MongoServer.status (MongoServer.register e b s).2 <> 200
       /\ MongoServer.Registration (MongoServer.register e b s).1
          = MongoServer.Registration s)
      \/ exists d,
           MongoServer.Registration (MongoServer.register e b s).1
           = MongoServer.Registration s ++ [d]
           /\ (MongoServer.register e b s).2
              = MongoServer.json
                  (MongoServer.Envelope true "Registration successful"
                     (Some (MongoServer._id d)) None)).
Proof.
  destruct (mongo_register_cases e b s) as [Hf [H | (mk & _ & Hmk & Hr & Ha)]].
  - split; [done | by left].
  - split; [done |]. right. eexists. split; [exact Hr | exact Ha].
Qed.

(** X12: the registrations of the database-backed server stay
    normalized: when every stored document has trimmed, non-empty names
    and a trimmed, lower-case, non-empty email, the same holds after any
    sequence of registrations and feedbacks. *)
Theorem registrations_stay_normalized
    (rs : list MongoServer.request) (s : MongoServer.state) :
  Forall normalized (MongoServer.Registration s) ->
  Forall normalized (MongoServer.Registration (MongoServer.run rs s).1).
Proof.
  apply (mongo_run_keeps (fun s => Forall normalized (MongoServer.Registration s))).
  clear rs s. intros [e b | e b] s Hn; simpl.
  - destruct (mongo_register_cases e b s) as [_ [[_ ->] | (mk & _ & Hmk & -> & _)]];
      [done |].
    apply Forall_app. split; [done |].
    constructor; [exact (cast_registration_normalized e b mk _ Hmk) | constructor].
  - destruct (mongo_feedback_cases e b s) as [[_ ->] | (d & _ & _ & -> & _)];
      done.
Qed.

(** The theorem on a run that registers a padded, upper-case email. *)
Lemma registrations_stay_normalized_witness :
  Forall normalized (MongoServer.Registration empty_db)
  /\ Forall normalized
       (MongoServer.Registration
          (MongoServer.run [MongoServer.PostRegister mongo_env ada_again]
             empty_db).1)
  /\ MongoServer.email <$>
       MongoServer.Registration
         (MongoServer.run [MongoServer.PostRegister mongo_env ada_again]
            empty_db).1
     = ["a@x.com"].
Proof.
  assert (H : Forall normalized (MongoServer.Registration empty_db)) by constructor.
  split; [exact H |].
  split; [exact (registrations_stay_normalized _ empty_db H) | by vm_compute].
Defined.

(** X13: the ratings of the database-backed server stay within range:
    when every stored feedback has no rating or one between 1 and 5, the
    same holds after any sequence of registrations and feedbacks,
    whatever the payloads carry as rating. *)
Theorem ratings_stay_in_range
    (rs : list MongoServer.request) (s : MongoServer.state) :
  Forall rating_in_range (MongoServer.Feedback s) ->
  Forall rating_in_range (MongoServer.Feedback (MongoServer.run rs s).1).
Proof.
  apply (mongo_run_keeps (fun s => Forall rating_in_range (MongoServer.Feedback s))).
  clear rs s. intros [e b | e b] s Hn; simpl.
  - by rewrite (proj1 (mongo_register_cases e b s)).
  - destruct (mongo_feedback_cases e b s) as [[_ ->] | (d & _ & Hd & -> & _)];
      [done |].
    simpl. apply Forall_app. split; [done |]. by constructor.
Qed.

(** The theorem on a run that sends the ratings "7abc", 0 and "4". *)
Lemma ratings_stay_in_range_witness :
  Forall rating_in_range (MongoServer.Feedback empty_db)
  /\ Forall rating_in_range
       (MongoServer.Feedback
          (MongoServer.run
             [MongoServer.PostFeedback mongo_env
                {[ "feedback1" := VStr "a"; "rating" := VStr "7abc" ]};
              MongoServer.PostFeedback mongo_env rating_zero;
              MongoServer.PostFeedback mongo_env
                {[ "feedback1" := VStr "b"; "rating" := VStr "4" ]}]
             empty_db).1)
  /\ MongoServer.rating <$>
       MongoServer.Feedback
         (MongoServer.run
            [MongoServer.PostFeedback mongo_env
               {[ "feedback1" := VStr "a"; "rating" := VStr "7abc" ]};
             MongoServer.PostFeedback mongo_env rating_zero;
             MongoServer.PostFeedback mongo_env
               {[ "feedback1" := VStr "b"; "rating" := VStr "4" ]}]
            empty_db).1
     = [None; Some 4].
Proof.
  assert (H : Forall rating_in_range (MongoServer.Feedback empty_db)) by constructor.
  split; [exact H |].
  split; [exact (ratings_stay_in_range _ empty_db H) | by vm_compute].
Defined.

(** X14: the admin lists of the database-backed server are capped and
    never invent documents: whatever the search and the state of the
    database, the registrations answered are at most 200 stored
    documents, newest first, and the feedbacks answered are the views of
    at most 100 stored feedbacks, newest first. *)
Theorem mongo_lists_capped
    (RegExp_i : string -> option (string -> bool))
    (e : MongoServer.env) (query : object) (s : MongoServer.state) :
  (exists l,
     MongoServer.body (MongoServer.list_registrations RegExp_i e query s)
     = MongoServer.RegistrationList l
     /\ (length l <= 200)%nat
     /\ newest_first MongoServer.timestamp l
     /\ forall d, In d l -> In d (MongoServer.Registration s))
  /\ (exists l,
        MongoServer.body (MongoServer.list_feedbacks e s)
        = MongoServer.FeedbackList (map MongoServer.view l)
        /\ (length l <= 100)%nat
        /\ newest_first MongoServer.fb_timestamp l
        /\ forall d, In d l -> In d (MongoServer.Feedback s)).
Proof.
  assert (Hnil : forall A (key : A -> Z) (P : A -> Prop) (n : nat),
             (length (@nil A) <= n)%nat /\ newest_first key []
             /\ forall d, In d [] -> P d).
  { intros. split; [simpl; lia |]. split; [constructor | intros d []]. }
  split.
  - unfold MongoServer.list_registrations.
    set (keep := if truthy _ then _ else _).
    destruct keep as [keep |]; [| exists []; split; [done | apply Hnil]].
    destruct (MongoServer.connected e); [| exists []; split; [done | apply Hnil]].
    eexists. split; [done |].
    split; [rewrite length_take; lia |].
    split; [apply newest_first_take, sort_newest_sorted |].
    intros d Hd. apply In_take, sort_newest_In, filter_In in Hd. tauto.
  - unfold MongoServer.list_feedbacks.
    destruct (MongoServer.connected e); [| exists []; split; [done | apply Hnil]].
    eexists. split; [done |].
    split; [rewrite length_take; lia |].
    split; [apply newest_first_take, sort_newest_sorted |].
    intros d Hd. by apply In_take, sort_newest_In in Hd.
Qed.

(** X15: while the database cannot be reached, the database-backed server
    stores nothing and never answers 200 to a submission: a payload that
    passes the handler's own checks is answered 500, and the stats
    endpoint answers 500 with zero counts. *)
Theorem offline_nothing_stored (e : MongoServer.env) (b : object)
    (s : MongoServer.state) :
  MongoServer.connected e = false ->
  ((MongoServer.register e b s).1 = s
   /\ MongoServer.status (MongoServer.register e b s).2 <> 200
   /\ (passes_checks b ->
       (MongoServer.register e b s).2
       = MongoServer.status_json 500
           (MongoServer.Failure "Server error during registration: "
              MongoServer.Unavailable)))
  /\ ((MongoServer.submit_feedback e b s).1 = s
      /\ MongoServer.status (MongoServer.submit_feedback e b s).2 <> 200)
  /\ MongoServer.stats e s
     = MongoServer.status_json 500
         (MongoServer.StatsObj 0 0 3 (Some "Database connection issue")).
Proof.
  intros He. split; [| split].
  - unfold MongoServer.register, MongoServer.findOne_email. rewrite He.
    split; [| split].
    + destruct (0 <? _); [done |]. by destruct (_ && _).
    + destruct (0 <? _); [done |]. by destruct (_ && _).
    + intros Hb. rewrite mongo_missing_file.
      by rewrite (passes_checks_missing b Hb), (passes_checks_interests b Hb).
  - unfold MongoServer.submit_feedback, MongoServer.create_feedback. rewrite He.
    destruct (_ && _); [done |]. by destruct (_ && _).
  - unfold MongoServer.stats. by rewrite He.
Qed.

(** The theorem at Ada's payload while the database is down. *)
Lemma offline_nothing_stored_witness :
  (MongoServer.connected offline_env = false /\ passes_checks ada_payload)
  /\ MongoServer.register offline_env ada_payload empty_db
     = (empty_db,
        MongoServer.status_json 500
          (MongoServer.Failure "Server error during registration: "
             MongoServer.Unavailable)).
Proof.
  assert (H : MongoServer.connected offline_env = false) by reflexivity.
  split; [split; [exact H | apply passes_checks_ada_payload] |].
  destruct (offline_nothing_stored offline_env ada_payload empty_db H)
    as [(Hs & _ & Ha) _].
  rewrite (surjective_pairing (MongoServer.register offline_env ada_payload empty_db)).
  by rewrite Hs, (Ha passes_checks_ada_payload).
Defined.

(** ** The browser client against the servers *)






(** X17: a registration sent by the page's submit function carries the
    boolean [true] as consent and passes the interests check of the
    file-backed server, which either turns it away for another reason,
    storing nothing, or stores a record whose consent is the boolean
    [true], whose interests are the page's selection and whose
    [otherInterest] is text. *)
Theorem client_registration_consent
    (registrationData : object) (selectedInterests : value)
    (otherInterest : option string) (p : object)
    (e : FileServer.env) (s : FileServer.state) :
  Client.submitRegistrationProduction registrationData selectedInterests
    otherInterest true = Client.Post p ->
  get p "consent" = VBool true
  /\ ((exists msg,
         FileServer.register e p s
         = (s, FileServer.status_json 400
                 (FileServer.Envelope false msg None None))
         /\ msg <> "Maximum 2 areas of interest allowed")
      \/ exists r,
           FileServer.register e p s
           = (FileServer.saveToFile_registrations e
                (FileServer.push_registration r s),
              FileServer.json
                (FileServer.Envelope true "Registration successful"
                   (Some (FileServer.date_now e)) None))
           /\ FileServer.consent r = VBool true
           /\ FileServer.interests r = or_else selectedInterests (VArr [])
           /\ exists t, FileServer.otherInterest r = VStr t).
Proof.
  unfold Client.submitRegistrationProduction.
  set (interests := or_else selectedInterests (VArr [])).
  set (other := match otherInterest with
                | Some t => or_else (VStr t) (VStr "")
                | None => VStr ""
                end).
  destruct (strict_eq (length_of interests) (VNum 0)); [done |].
  destruct (gt (length_of interests) 2) eqn:Hgt; [done |].
  intros [= <-].
  set (p := <[ "consent" := VBool true ]>
              (<[ "otherInterest" := other ]>
                 (<[ "interests" := interests ]> registrationData))).
  assert (Hc : get p "consent" = VBool true).
  { unfold get, p. by rewrite lookup_insert_eq. }
  assert (Ho : get p "otherInterest" = other).
  { unfold get, p. rewrite lookup_insert_ne by done. by rewrite lookup_insert_eq. }
  assert (Hi : get p "interests" = interests).
  { unfold get, p. rewrite !lookup_insert_ne by done. by rewrite lookup_insert_eq. }
  assert (Hti : truthy interests = true).
  { unfold interests, or_else. by destruct (truthy selectedInterests) eqn:E. }
  assert (Hot : exists t, other = VStr t).
  { unfold other. destruct otherInterest as [t |]; [| by exists ""].
    unfold or_else. destruct (truthy (VStr t)); eauto. }
  split; [exact Hc |].
  pose proof (eq_refl (FileServer.register e p s)) as Hreg.
  unfold FileServer.register in Hreg at 2.
  rewrite Hi, Hti, Hgt, Hc, Ho in Hreg. simpl in Hreg.
  destruct (0 <? _).
  { left. eexists. split; [exact Hreg |]. simpl. discriminate. }
  destruct (List.find _ _).
  { left. eexists. split; [exact Hreg |]. discriminate. }
  right. eexists. split; [exact Hreg |]. simpl.
  split; [done |]. split; [unfold or_else; by rewrite Hti |].
  destruct Hot as [t ->]. unfold or_else. destruct (truthy (VStr t)); eauto.
Qed.

(** The theorem at Ada's stored form data and one selected interest. *)
Lemma client_registration_consent_witness :
  exists p,
    Client.submitRegistrationProduction ada_payload (VArr [VStr "5G"])
      (Some "drones") true = Client.Post p
    /\ FileServer.consent <$>
         FileServer.registrations (FileServer.register file_env p empty_store).1
       = [VBool true].
Proof.
  eexists. split; [reflexivity |].
  destruct (client_registration_consent ada_payload (VArr [VStr "5G"])
              (Some "drones") _ file_env empty_store eq_refl) as [_ H].
  by vm_compute.
Defined.

(** X18: the empty array the database-backed server answers while the
    database is down never reaches the page: for the list of
    registrations, whatever the search, and for the list of feedbacks,
    [apiRequest] throws the error "HTTP 500". *)
Theorem client_offline_lists_throw
    (error_message : MongoServer.store_error -> string)
    (RegExp_i : string -> option (string -> bool))
    (e : MongoServer.env) (searchQuery : string) (s : MongoServer.state) :
  MongoServer.connected e = false ->
  Client.from_mongo error_message
    (MongoServer.list_registrations RegExp_i e
       (Client.getRegistrations_query searchQuery) s) = inr "HTTP 500"
  /\ Client.from_mongo error_message (MongoServer.list_feedbacks e s)
     = inr "HTTP 500".
Proof.
  intros He.
  assert (H : forall q,
             MongoServer.list_registrations RegExp_i e q s
             = MongoServer.status_json 500 (MongoServer.RegistrationList [])).
  { intros q. unfold MongoServer.list_registrations. rewrite He.
    destruct (truthy _); [| done]. by destruct (RegExp_i _). }
  rewrite H. unfold MongoServer.list_feedbacks. rewrite He.
  split; by vm_compute.
Qed.

(** The theorem at a search for "ada" while the database is down. *)
Lemma client_offline_lists_throw_witness :
  MongoServer.connected offline_env = false
  /\ Client.from_mongo (fun _ => "unreachable")
       (MongoServer.list_registrations no_regexp offline_env
          (Client.getRegistrations_query "ada") (db_with cold_room))
     = inr "HTTP 500".
Proof.
  split; [reflexivity |].
  exact (proj1 (client_offline_lists_throw (fun _ => "unreachable") no_regexp
                  offline_env "ada" (db_with cold_room) eq_refl)).
Defined.

(** X19: what [apiRequest] makes of the answers of the file-backed
    server to a submission: the success envelope when the answer is 200,
    and otherwise an error whose message is the message the server put in
    its envelope. *)
Theorem client_reports_server_message (r : FileServer.request)
    (s : FileServer.state) :
  (FileServer.status (FileServer.handle r s).2 = 200
   /\ Client.from_file (FileServer.handle r s).2
      = inl (FileServer.body (FileServer.handle r s).2))
  \/ exists msg,
       FileServer.status (FileServer.handle r s).2 <> 200
       /\ FileServer.body (FileServer.handle r s).2
          = FileServer.Envelope false msg None None
       /\ Client.from_file (FileServer.handle r s).2 = inr msg.
Proof.
  destruct r as [e b | e b]; simpl.
  - unfold FileServer.register.
    destruct (0 <? _); [right; eexists; by repeat split |].
    destruct (_ && _); [right; eexists; by repeat split |].
    destruct (List.find _ _); [right; eexists; by repeat split |].
    by left.
  - unfold FileServer.submit_feedback.
    destruct (_ && _); [right; eexists; by repeat split |].
    destruct (_ && _); [right; eexists; by repeat split |].
    destruct (FileServer.trim_or_empty _); [| right; eexists; by repeat split].
    destruct (FileServer.trim_or_empty _); [| right; eexists; by repeat split].
    by left.
Qed.

(** ** The routers *)

(** The lemma on absent or empty feedback at a payload with no field. *)
Lemma empty_feedback_rejected_witness :
  (absent_or_empty (get (∅ : object) "feedback1")
   /\ absent_or_empty (get (∅ : object) "feedback2"))
  /\ FileServer.submit_feedback file_env ∅ two_registrations
     = (two_registrations,
        FileServer.status_json 400
          (FileServer.Envelope false "At least one feedback field is required"
             None None)).
Proof.
  assert (H1 : absent_or_empty (get (∅ : object) "feedback1")) by (by left).
  assert (H2 : absent_or_empty (get (∅ : object) "feedback2")) by (by left).
  split; [auto |].
  exact (proj1 (empty_feedback_rejected file_env mongo_env ∅ two_registrations
                  empty_db H1 H2)).
Defined.
